(** * Model-training page: column mapping, row transformation and the
      upload pipeline of [handleStartTraining]

    A shallow embedding of the CSV header normalisation, the alias table
    [NORMALIZED_COLUMN_MAP], the pre-flight check, the row transformer
    [rowsToInsert] and the two-stage upload handler of the
    [ModelTrainingPage] component, followed by the properties proved (or
    refuted) about them.  After them come the pieces in which the other
    version of the page differs (the check of the file name, the
    cleaning of the rows, the form data and the address of the
    endpoint) and the score board of the trivia game.

    Conventions.
    - A JavaScript string is the list of its UTF-16 code units ([list N]).
    - A JavaScript value is a term of [value]; an object used as a
      dictionary is a [gmap] from property names to values, read through
      [get], which also consults [Object.prototype] the way the bracket
      operator does.
    - The handler only *emits* effects (state-setter calls, console and
      network calls); what it reads (the selected file, the slider value,
      the form fields, the clock, the answers of the parser and of the two
      remote services) is gathered in an [environment].  React state after
      a run is the replay of the emitted setter calls. *)

From Stdlib Require Import ZArith NArith QArith List String Ascii Lia.
From Stdlib Require Import DecimalString.
From stdpp Require Import gmap list fin_maps.

Local Open Scope N_scope.

(* ===================================================================== *)
(** * JavaScript strings and values                                       *)
(* ===================================================================== *)

Module JS.

(** Code units of an ASCII literal. *)
Definition u16 (s : string) : list N :=
  List.map N_of_ascii (list_ascii_of_string s).

Global Arguments u16 : simpl never.

(** ECMAScript [WhiteSpace] and [LineTerminator] code points, the ones
    [String.prototype.trim] removes. *)
Definition isWhiteSpace (c : N) : bool :=
  (c =? 9) || (c =? 10) || (c =? 11) || (c =? 12) || (c =? 13) ||
  (c =? 32) || (c =? 160) || (c =? 0x1680) ||
  ((0x2000 <=? c) && (c <=? 0x200A)) ||
  (c =? 0x2028) || (c =? 0x2029) || (c =? 0x202F) || (c =? 0x205F) ||
  (c =? 0x3000) || (c =? 0xFEFF).

Fixpoint trimStart (s : list N) : list N :=
  match s with
  | [] => []
  | c :: r => if isWhiteSpace c then trimStart r else s
  end.

Definition trimEnd (s : list N) : list N := rev (trimStart (rev s)).

(** [s.trim()] *)
Definition trim (s : list N) : list N := trimEnd (trimStart s).

(** Lower-casing of one code unit.  ASCII capitals move to their small
    letters.  Two letters outside ASCII have a lower-case form that
    contains an ASCII letter: U+212A KELVIN SIGN becomes [k], and U+0130
    (capital I with dot above) becomes [i] followed by U+0307.  Every other
    Unicode lower-case mapping sends code units outside ASCII to code
    units outside ASCII; those are kept as they are here, which is all
    the callers (who remove everything but [a-z0-9] next) can observe. *)
Definition lowerUnit (c : N) : list N :=
  if (65 <=? c) && (c <=? 90) then [c + 32]
  else if c =? 0x212A then [107]
  else if c =? 0x0130 then [105; 0x0307]
  else [c].

(** [s.toLowerCase()] *)
Definition toLowerCase (s : list N) : list N := flat_map lowerUnit s.

(** Values.  An object (or function) is represented by the string its
    [ToString] conversion yields; objects are always truthy. *)
Inductive value : Type :=
| VUndefined
| VNull
| VBool (b : bool)
| VNumber (n : Z)
| VNaN
| VString (s : list N)
| VObject (str : list N).

#[global] Instance value_eq_dec : EqDecision value.
Proof. solve_decision. Defined.

(** [ToBoolean] *)
Definition truthy (v : value) : bool :=
  match v with
  | VUndefined | VNull | VNaN => false
  | VBool b => b
  | VNumber n => negb (n =? 0)%Z
  | VString s => match s with [] => false | _ => true end
  | VObject _ => true
  end.

(** Decimal rendering of an integer-valued number, the form
    [Number::toString] gives to the integers below 10^21; the numbers
    rendered here are lengths of lists and the hundredths of the slider. *)
Definition numberToString (n : Z) : list N :=
  u16 (NilZero.string_of_int (Z.to_int n)).

(** [ToString], also used for property keys and template literals. *)
Definition toString (v : value) : list N :=
  match v with
  | VUndefined => u16 "undefined"
  | VNull => u16 "null"
  | VBool true => u16 "true"
  | VBool false => u16 "false"
  | VNumber n => numberToString n
  | VNaN => u16 "NaN"
  | VString s => s
  | VObject str => str
  end.

(** [typeof v === "string" && v.trim() === ""] *)
Definition isBlankString (v : value) : bool :=
  match v with
  | VString s => match trim s with [] => true | _ => false end
  | _ => false
  end.

(** The rendering of the built-in [Object] constructor as a string (the
    form V8 and JavaScriptCore print). *)
Definition Object_constructor : value :=
  VObject (u16 "function Object() { [native code] }").

Definition builtin (name : string) : list N * value :=
  (u16 name, VObject (u16 ("function " ++ name ++ "() { [native code] }"))).

(** The properties every object literal inherits from [Object.prototype]. *)
Definition Object_prototype : gmap (list N) value :=
  list_to_map
    [ (u16 "constructor", Object_constructor);
      builtin "hasOwnProperty"; builtin "isPrototypeOf";
      builtin "propertyIsEnumerable"; builtin "toLocaleString";
      builtin "toString"; builtin "valueOf";
      builtin "__defineGetter__"; builtin "__defineSetter__";
      builtin "__lookupGetter__"; builtin "__lookupSetter__";
      (u16 "__proto__", VObject (u16 "[object Object]")) ].

Global Arguments Object_prototype : simpl never.

(** [o[k]] on an object literal: own property first, then the prototype,
    else [undefined]. *)
Definition get (o : gmap (list N) value) (k : list N) : value :=
  match o !! k with
  | Some v => v
  | None => default VUndefined (Object_prototype !! k)
  end.

(** [o[k] = v] with a key converted by [ToString]. *)
Definition set (o : gmap (list N) value) (k : value) (v : value)
  : gmap (list N) value :=
  <[toString k := v]> o.

End JS.

(* ===================================================================== *)
(** * Column mapper                                                       *)
(* ===================================================================== *)

Module ColumnMapper.
Import JS.

(** The class [[a-z0-9]] of the regular expression. *)
Definition isLowerAlnum (c : N) : bool :=
  ((97 <=? c) && (c <=? 122)) || ((48 <=? c) && (c <=? 57)).

(** [s.replace(/[^a-z0-9]/g, "")] *)
Definition stripNonAlnum (s : list N) : list N := List.filter isLowerAlnum s.

(** [header.trim().toLowerCase().replace(/[^a-z0-9]/g, "")] *)
Definition normalizeKey (header : list N) : list N :=
  stripNonAlnum (toLowerCase (trim header)).

(** The entries of the object literal, in source order. *)
Definition aliases : list (string * string) :=
  [ ("orbitalperioddays", "orbital_period_days");
    ("planetradiusrearth", "planet_radius_rearth");
    ("insolationfluxeflux", "insolation_flux_eflux");
    ("equilibriumtempk", "equilibrium_temp_K");
    ("stellarteffk", "stellar_teff_K");
    ("stellarloggcgs", "stellar_logg_cgs");
    ("stellarradiusrsun", "stellar_radius_rsun");
    ("stellarmag", "stellar_mag");
    ("radeg", "ra_deg");
    ("decdeg", "dec_deg");
    ("label", "label");
    ("source", "source");
    ("koiperiod", "orbital_period_days");
    ("koiprad", "planet_radius_rearth");
    ("koiinsol", "insolation_flux_eflux");
    ("koiteq", "equilibrium_temp_K");
    ("koisteff", "stellar_teff_K");
    ("koislogg", "stellar_logg_cgs");
    ("koisrad", "stellar_radius_rsun");
    ("koikepmag", "stellar_mag");
    ("koidisposition", "label");
    ("plorbper", "orbital_period_days");
    ("plrade", "planet_radius_rearth");
    ("plinsol", "insolation_flux_eflux");
    ("pleqt", "equilibrium_temp_K");
    ("stteff", "stellar_teff_K");
    ("stlogg", "stellar_logg_cgs");
    ("strad", "stellar_radius_rsun");
    ("sttmag", "stellar_mag");
    ("syvmag", "stellar_mag");
    ("tfopwgdisp", "label");
    ("disposition", "label");
    ("ra", "ra_deg");
    ("dec", "dec_deg") ]%string.

Definition aliasEntries : list (list N * value) :=
  List.map (fun kv => (u16 (fst kv), VString (u16 (snd kv)))) aliases.

Definition NORMALIZED_COLUMN_MAP : gmap (list N) value :=
  list_to_map aliasEntries.

Global Arguments NORMALIZED_COLUMN_MAP : simpl never.

(** The canonical field names: the range of the table. *)
Definition canonicalFields : list (list N) :=
  List.map (fun kv => u16 (snd kv)) aliases.

(** [NORMALIZED_COLUMN_MAP[normalizedKey]], the [dbKey] of both loops. *)
Definition dbKeyOf (header : list N) : value :=
  get NORMALIZED_COLUMN_MAP (normalizeKey header).

Global Arguments normalizeKey : simpl never.
Global Arguments dbKeyOf : simpl never.

(** What the mapper tells its callers about a header: the canonical
    field it is an alias of, or nothing. *)
Inductive mapping : Type :=
| Canonical (field : list N)
| Inherited (v : value)
| Unmapped.

#[global] Instance mapping_eq_dec : EqDecision mapping.
Proof. solve_decision. Defined.

Definition mapHeader (header : list N) : mapping :=
  let dbKey := dbKeyOf header in
  if truthy dbKey then
    match NORMALIZED_COLUMN_MAP !! normalizeKey header with
    | Some (VString f) => Canonical f
    | _ => Inherited dbKey
    end
  else Unmapped.

(** Following the words of the specification: two headers "differ only
    by case, whitespace or punctuation" when the sequences of their
    letters and digits, letters taken in lower case, coincide.
    [letterOrDigit] gives the lower-case form of a letter or digit of
    [a-z0-9] and nothing for any other code unit.  The letters that take
    part are the ASCII ones and the two letters outside ASCII whose lower
    case is or begins with an ASCII letter (U+212A and U+0130); any other
    code unit, lower-cased or not, is outside [a-z0-9]. *)
Definition letterOrDigit (c : N) : option N :=
  if (48 <=? c) && (c <=? 57) then Some c
  else if (97 <=? c) && (c <=? 122) then Some c
  else if (65 <=? c) && (c <=? 90) then Some (c + 32)
  else if c =? 0x212A then Some 107
  else if c =? 0x0130 then Some 105
  else None.

Definition foldedAlnum (s : list N) : list N := omap letterOrDigit s.

End ColumnMapper.

(* ===================================================================== *)
(** * Row transformer                                                     *)
(* ===================================================================== *)

Module RowTransformer.
Import JS ColumnMapper.

(** A parsed row: its own enumerable properties in [for ... in] order.
    The keys of a row are pairwise distinct, as in any object. *)
Definition rawRow : Type := list (list N * value).

Definition k_source : list N := u16 "source".
Definition uploaded_csv : value := VString (u16 "uploaded_csv").

(** [typeof value === "string" && value.trim() === "" ? null : value] *)
Definition nullIfBlank (v : value) : value :=
  if isBlankString v then VNull else v.

(** One turn of the [for (const rawKey in row)] loop. *)
Definition mapCell (mappedRow : gmap (list N) value) (cell : list N * value)
  : gmap (list N) value :=
  let '(rawKey, value) := cell in
  let dbKey := dbKeyOf rawKey in
  if truthy dbKey then set mappedRow dbKey (nullIfBlank value)
  else mappedRow.

(** The loop as a whole, starting from [{}]. *)
Definition mapCells (row : rawRow) : gmap (list N) value :=
  fold_left mapCell row ∅.

(** [if (!mappedRow.source) mappedRow.source = "uploaded_csv"] *)
Definition addSource (mappedRow : gmap (list N) value) : gmap (list N) value :=
  if truthy (get mappedRow k_source) then mappedRow
  else <[k_source := uploaded_csv]> mappedRow.

(** The callback of [rawRows.map]. *)
Definition transformRow (row : rawRow) : gmap (list N) value :=
  addSource (mapCells row).

Definition rowsToInsert (rawRows : list rawRow) : list (gmap (list N) value) :=
  List.map transformRow rawRows.

(** ** Vocabulary for the statements about the transformer *)

(** The key of the output record a raw column is written under, if any. *)
Definition target (rawKey : list N) : option (list N) :=
  if truthy (dbKeyOf rawKey) then Some (toString (dbKeyOf rawKey)) else None.

Global Arguments target : simpl never.

(** The key the inherited [constructor] property turns into. *)
Definition inheritedKey : list N := toString Object_constructor.

(** "Empty or whitespace-only", said without [trim]. *)
Definition whitespaceOnly (s : list N) : bool := forallb isWhiteSpace s.

(** Two rows with a column spelled [constructor]: beside an alias, and
    beside a column whose header is the rendering of [Object]. *)
Definition koi_teq_and_constructor : rawRow :=
  [ (u16 "koi_teq", VString (u16 "300"));
    (u16 "constructor", VString (u16 "x")) ].

Definition constructor_and_its_rendering : rawRow :=
  [ (u16 "constructor", VString (u16 "x"));
    (inheritedKey, VString (u16 "y")) ].

End RowTransformer.

(* ===================================================================== *)
(** * The submission handler                                              *)
(* ===================================================================== *)

Module Handler.
Import JS ColumnMapper RowTransformer.

(** ** What the handler reads *)

(** A thrown or rejected value: an [Error] instance with its message, or
    anything else. *)
Inductive exn : Type :=
| ErrorObject (message : list N)
| ThrownValue (v : value).

(** A settled promise. *)
Inductive settled (A : Type) : Type :=
| Resolves (a : A)
| Rejects (e : exn).
Arguments Resolves {A} a.
Arguments Rejects {A} e.

(** The selected [File]: its name and what [file.text()] settles to. *)
Record file : Type := { name : list N; text : settled (list N) }.

(** The result of [Papa.parse]: the messages of [errors], [data] and
    [meta.fields]. *)
Record parseResult : Type :=
  { errors : list (list N);
    data : list rawRow;
    fields : option (list (list N)) }.

(** The body [response.json()] yields: [null], or a value with its
    [error] and [metrics_json] properties ([undefined] when absent). *)
Inductive jsonValue : Type :=
| JsonNull
| JsonData (error metrics_json : value).

Record response : Type := { ok : bool; json : settled jsonValue }.

Inductive formValue : Type :=
| FormFile (f : file)
| FormText (s : list N).

Definition formData : Type := list (list N * formValue).

(** The [value] of the seven named inputs of the form. *)
Record hyperparameters : Type :=
  { cv_folds : list N;
    rf_estimators : list N;
    xgb_estimators : list N;
    lgbm_estimators : list N;
    xgb_max_depth : list N;
    lgbm_max_depth : list N;
    learning_rate : list N }.

Record environment : Type :=
  { selectedFile : option file;
    trainTestSplit : Z;
    form : hyperparameters;
    (** the string the [n]-th reading of the clock is rendered to *)
    toLocaleTimeString : nat -> list N;
    parse : list N -> parseResult;
    (** [supabase.from("exoplanet_datasets").insert(rows)]: resolves to
        the message of [error], if any *)
    insert : list (gmap (list N) value) -> settled (option (list N));
    fetch : formData -> settled response }.

(** ** What the handler does *)

Inductive statusUpdate : Type :=
| Replace (log : list (list N))
| Append (entry : list N).

Inductive effect : Type :=
| PreventDefault
| SetIsTraining (b : bool)
| SetTrainingStatus (u : statusUpdate)
| SetMetricsJson (v : value)
| ConsoleLog (rows : list (gmap (list N) value))
| SupabaseInsert (table : list N) (rows : list (gmap (list N) value))
| Post (url : list N) (body : formData).

Definition isNetwork (e : effect) : bool :=
  match e with
  | SupabaseInsert _ _ | Post _ _ => true
  | _ => false
  end.

(** React state of the component touched by the handler. *)
Record state : Type :=
  { trainingStatus : list (list N);
    isTraining : bool;
    metricsJson : value }.

Definition applyUpdate (prev : list (list N)) (u : statusUpdate) : list (list N) :=
  match u with
  | Replace log => log
  | Append entry => prev ++ [entry]
  end.

Definition apply (st : state) (e : effect) : state :=
  match e with
  | SetIsTraining b =>
      {| trainingStatus := trainingStatus st; isTraining := b;
         metricsJson := metricsJson st |}
  | SetTrainingStatus u =>
      {| trainingStatus := applyUpdate (trainingStatus st) u;
         isTraining := isTraining st; metricsJson := metricsJson st |}
  | SetMetricsJson v =>
      {| trainingStatus := trainingStatus st; isTraining := isTraining st;
         metricsJson := v |}
  | _ => st
  end.

Definition replay (st : state) (trace : list effect) : state :=
  fold_left apply trace st.

(** ** The monad of the handler: a clock counter, the effects emitted so
       far, and the three ways a block completes *)

Record run : Type := { ticks : nat; emitted : list effect }.

Inductive completion (A : Type) : Type :=
| Normal (a : A)
| Return
| Throw (e : exn).
Arguments Normal {A} a.
Arguments Return {A}.
Arguments Throw {A} e.

Definition M (A : Type) : Type := run -> completion A * run.

Definition ret {A} (a : A) : M A := fun r => (Normal a, r).

Definition bind {A B} (m : M A) (k : A -> M B) : M B :=
  fun r =>
    match m r with
    | (Normal a, r') => k a r'
    | (Return, r') => (Return, r')
    | (Throw e, r') => (Throw e, r')
    end.

Declare Scope handler_scope.
Delimit Scope handler_scope with handler.
Bind Scope handler_scope with M.
Notation "'do' x <- m ; k" := (bind m (fun x => k))
  (at level 10, x name, m at level 100, k at level 200) : handler_scope.
Notation "'exec' m ; k" := (bind m (fun _ => k))
  (at level 10, m at level 100, k at level 200) : handler_scope.
Local Open Scope handler_scope.

(** [return;] *)
Definition return_ {A} : M A := fun r => (Return, r).

Definition throw {A} (e : exn) : M A := fun r => (Throw e, r).

Definition emit (e : effect) : M unit :=
  fun r => (Normal tt, {| ticks := ticks r; emitted := emitted r ++ [e] |}).

(** [new Date()]: the index of this reading of the clock. *)
Definition tick : M nat :=
  fun r => (Normal (ticks r), {| ticks := S (ticks r); emitted := emitted r |}).

Definition await {A} (p : settled A) : M A :=
  match p with
  | Resolves a => ret a
  | Rejects e => throw e
  end.

Definition tryCatch {A} (body : M A) (handler : exn -> M A) : M A :=
  fun r =>
    match body r with
    | (Throw e, r') => handler e r'
    | other => other
    end.

Definition tryFinally {A} (body : M A) (finalizer : M unit) : M A :=
  fun r =>
    let '(c, r') := body r in
    match finalizer r' with
    | (Normal _, r'') => (c, r'')
    | (Return, r'') => (Return, r'')
    | (Throw e, r'') => (Throw e, r'')
    end.

Definition when (c : bool) (m : M unit) : M unit := if c then m else ret tt.

(** ** Messages *)

Definition stamp (timestamp message : list N) : list N :=
  u16 "[" ++ timestamp ++ u16 "] " ++ message.

Definition cross : list N := [0x274C].
Definition check : list N := [0x2705].
Definition warning : list N := [0x26A0; 0xFE0F].
Definition chart : list N := [0xD83D; 0xDCCA].

Fixpoint join (sep : list N) (l : list (list N)) : list N :=
  match l with
  | [] => []
  | [x] => x
  | x :: r => x ++ sep ++ join sep r
  end.

Definition lengthString {A} (l : list A) : list N :=
  numberToString (Z.of_nat (length l)).

Definition msg_no_file := u16 "Error: Please select a file first".
Definition msg_starting := u16 "Starting training process...".
Definition msg_parsing := u16 "Parsing CSV file...".
Definition msg_parse_error (m : list N) := cross ++ u16 " CSV parse error: " ++ m.
Definition msg_preflight := u16 "Running pre-flight check on CSV headers...".
Definition msg_found (columns mapped : list N) :=
  u16 "Found " ++ columns ++ u16 " columns. Mapped " ++ mapped ++ u16 ".".
Definition msg_unmapped (unmappedHeaders : list (list N)) :=
  warning ++ u16 " Unmapped columns: [" ++ join (u16 ", ") unmappedHeaders ++ u16 "]".
Definition msg_critical :=
  cross ++ u16 " CRITICAL ERROR: The CSV file does not contain a recognizable column for 'equilibrium_temp_K'.".
Definition msg_advice :=
  u16 "Please check the 'Unmapped columns' list above and ensure your file has a column like 'equilibrium_temp_k', 'koi_teq', or 'pl_eqt'.".
Definition msg_passed :=
  check ++ u16 " Pre-flight check passed. All critical columns found.".
Definition msg_mapped (rows : list N) :=
  u16 "Mapped " ++ rows ++ u16 " rows. Uploading to Supabase...".
Definition msg_insert_error (m : list N) :=
  cross ++ u16 " Supabase table insert error: " ++ m.
Definition msg_uploaded := check ++ u16 " Data uploaded to Supabase table.".
Definition msg_upload_error (m : list N) :=
  cross ++ u16 " Supabase table upload error: " ++ m.
Definition msg_training := u16 "Uploading file and starting model training...".
Definition msg_complete :=
  check ++ u16 " Training complete! New model saved successfully.".
Definition msg_metrics := chart ++ u16 " Detailed metrics loaded.".
Definition msg_error (m : list N) := cross ++ u16 " Error: " ++ m.

Definition failed_to_fetch : list N := u16 "Failed to fetch".
Definition unknown_error_occurred : value := VString (u16 "Unknown error occurred").

Definition equilibrium_temp_K : value := VString (u16 "equilibrium_temp_K").
Definition exoplanet_datasets : list N := u16 "exoplanet_datasets".
Definition train_url : list N := u16 "http://localhost:5000/api/train".

(** ** The pieces of [handleStartTraining] *)

Section WithEnvironment.
Variable env : environment.

(** [appendStatus(message)] *)
Definition appendStatus (message : list N) : M unit :=
  do n <- tick;
  emit (SetTrainingStatus (Append (stamp (toLocaleTimeString env n) message))).

(** [mappedHeaders.add(dbKey)] on a [Set], kept in insertion order. *)
Definition setAdd (v : value) (s : list value) : list value :=
  if decide (v ∈ s) then s else s ++ [v].

(** [mappedHeaders.has(v)] *)
Definition setHas (v : value) (s : list value) : bool :=
  bool_decide (v ∈ s).

(** The callback of [csvHeaders.forEach], on the pair
    [(mappedHeaders, unmappedHeaders)]. *)
Definition preflightStep (acc : list value * list (list N)) (header : list N)
  : list value * list (list N) :=
  match header with
  | [] => acc
  | _ =>
      let dbKey := dbKeyOf header in
      if truthy dbKey then (setAdd dbKey (fst acc), snd acc)
      else (fst acc, snd acc ++ [header])
  end.

Definition preflight (csvHeaders : list (list N)) : list value * list (list N) :=
  fold_left preflightStep csvHeaders ([], []).

(** The body of the first [try]. *)
Definition uploadStage (f : file) : M unit :=
  exec appendStatus msg_parsing;
  do text <- await (text f);
  let parsed := parse env text in
  exec when (negb (Nat.eqb (length (errors parsed)) 0))
    (exec appendStatus (msg_parse_error (List.hd [] (errors parsed)));
     exec emit (SetIsTraining false);
     return_);
  let rawRows := data parsed in
  exec appendStatus msg_preflight;
  let csvHeaders := default [] (fields parsed) in
  let mappedHeaders := fst (preflight csvHeaders) in
  let unmappedHeaders := snd (preflight csvHeaders) in
  exec appendStatus
    (msg_found (lengthString csvHeaders) (lengthString mappedHeaders));
  exec when (negb (Nat.eqb (length unmappedHeaders) 0))
    (appendStatus (msg_unmapped unmappedHeaders));
  exec when (negb (setHas equilibrium_temp_K mappedHeaders))
    (exec appendStatus msg_critical;
     exec appendStatus msg_advice;
     exec emit (SetIsTraining false);
     return_);
  exec appendStatus msg_passed;
  let rows := rowsToInsert rawRows in
  exec appendStatus (msg_mapped (lengthString rows));
  exec emit (ConsoleLog rows);
  exec emit (SupabaseInsert exoplanet_datasets rows);
  do insertError <- await (insert env rows);
  match insertError with
  | Some message =>
      exec appendStatus (msg_insert_error message);
      exec emit (SetIsTraining false);
      return_
  | None => appendStatus msg_uploaded
  end.

(** [err instanceof Error ? err.message : String(err)] *)
Definition uploadErrorMessage (err : exn) : list N :=
  match err with
  | ErrorObject message => message
  | ThrownValue v => toString v
  end.

(** The first [catch]. *)
Definition uploadCatch (err : exn) : M unit :=
  exec appendStatus (msg_upload_error (uploadErrorMessage err));
  exec emit (SetIsTraining false);
  return_.

(** [(trainTestSplit / 100).toString()] for an integer number of
    hundredths: the integer part, and the one or two decimals when there
    are any.  The quotient is the double nearest to the fraction, whose
    shortest decimal rendering is the fraction's own. *)
Definition hundredthsToString (n : Z) : list N :=
  let q := (Z.abs n / 100)%Z in
  let r := (Z.abs n mod 100)%Z in
  (if (n <? 0)%Z then u16 "-" else []) ++
  numberToString q ++
  (if (r =? 0)%Z then []
   else u16 "." ++ numberToString (r / 10) ++
        (if (r mod 10 =? 0)%Z then [] else numberToString (r mod 10))).

(** The nine [formData.append] calls. *)
Definition buildFormData (f : file) : formData :=
  [ (u16 "file", FormFile f);
    (u16 "train_test_split", FormText (hundredthsToString (trainTestSplit env)));
    (u16 "cv_folds", FormText (cv_folds (form env)));
    (u16 "rf_estimators", FormText (rf_estimators (form env)));
    (u16 "xgb_estimators", FormText (xgb_estimators (form env)));
    (u16 "lgbm_estimators", FormText (lgbm_estimators (form env)));
    (u16 "xgb_max_depth", FormText (xgb_max_depth (form env)));
    (u16 "lgbm_max_depth", FormText (lgbm_max_depth (form env)));
    (u16 "learning_rate", FormText (learning_rate (form env))) ].

(** Reading a property of [null] throws a [TypeError] (with the wording
    of V8). *)
Definition nullTypeError (property : string) : exn :=
  ErrorObject
    (u16 ("Cannot read properties of null (reading '" ++ property ++ "')")).

(** [data.error] *)
Definition data_error (d : jsonValue) : M value :=
  match d with
  | JsonNull => throw (nullTypeError "error")
  | JsonData error _ => ret error
  end.

(** [data.metrics_json] *)
Definition data_metrics_json (d : jsonValue) : M value :=
  match d with
  | JsonNull => throw (nullTypeError "metrics_json")
  | JsonData _ metrics_json => ret metrics_json
  end.

(** [a || b] *)
Definition orElse (a b : value) : value := if truthy a then a else b.

(** The body of the second [try]. *)
Definition trainStage (body : formData) : M unit :=
  exec appendStatus msg_training;
  exec emit (Post train_url body);
  do response <- await (fetch env body);
  do data <- await (json response);
  exec when (negb (ok response))
    (do error <- data_error data;
     throw (ErrorObject (toString (orElse error unknown_error_occurred))));
  exec appendStatus msg_complete;
  do metrics_json <- data_metrics_json data;
  when (truthy metrics_json)
    (exec emit (SetMetricsJson metrics_json);
     appendStatus msg_metrics).

(** [error instanceof Error ? error.message : "Unknown error"] *)
Definition trainErrorMessage (error : exn) : list N :=
  match error with
  | ErrorObject message => message
  | ThrownValue _ => u16 "Unknown error"
  end.

(** The second [catch]. *)
Definition trainCatch (error : exn) : M unit :=
  let errorMessage := trainErrorMessage error in
  when (negb (bool_decide (errorMessage = failed_to_fetch)))
    (appendStatus (msg_error errorMessage)).

(** The [finally] block. *)
Definition trainFinally : M unit := emit (SetIsTraining false).

Definition handleStartTraining : M unit :=
  exec emit PreventDefault;
  match selectedFile env with
  | None =>
      exec appendStatus msg_no_file;
      return_
  | Some f =>
      exec emit (SetIsTraining true);
      exec emit (SetTrainingStatus (Replace []));
      exec emit (SetMetricsJson VNull);
      exec appendStatus msg_starting;
      exec tryCatch (uploadStage f) uploadCatch;
      let body := buildFormData f in
      tryFinally (tryCatch (trainStage body) trainCatch) trainFinally
  end.

End WithEnvironment.

(** A submission: the handler run from a fresh clock. *)
Definition start : run := {| ticks := 0; emitted := [] |}.

Definition submit (env : environment) : completion unit * run :=
  handleStartTraining env start.

(** The effects of a submission, oldest first. *)
Definition trace (env : environment) : list effect := emitted (snd (submit env)).

(** React state after a submission that began in state [st]. *)
Definition after (env : environment) (st : state) : state :=
  replay st (trace env).

(** ** Vocabulary for the statements about the handler *)

(** [setTrainingStatus] called with a value instead of an updater. *)
Definition isReset (e : effect) : bool :=
  match e with
  | SetTrainingStatus (Replace _) => true
  | _ => false
  end.

(** The entries a run appends to the log, oldest first. *)
Definition appended (es : list effect) : list (list N) :=
  omap (fun e => match e with
                 | SetTrainingStatus (Append entry) => Some entry
                 | _ => None
                 end) es.

(** The entries of [log] carry the readings [n], [n + 1], ... of the
    clock, in this order. *)
Fixpoint stampedFrom (env : environment) (n : nat) (log : list (list N)) : Prop :=
  match log with
  | [] => True
  | entry :: later =>
      (exists message, entry = stamp (toLocaleTimeString env n) message) /\
      stampedFrom env (S n) later
  end.

(** The network operations of a run, oldest first. *)
Definition network (es : list effect) : list effect := List.filter isNetwork es.

(** The rows the handler sends for a file whose text is [content]. *)
Definition rowsOf (env : environment) (content : list N)
  : list (gmap (list N) value) :=
  rowsToInsert (data (parse env content)).

(** Whether the pre-flight check lets a file whose text is [content]
    through. *)
Definition preflightPasses (env : environment) (content : list N) : bool :=
  setHas equilibrium_temp_K
    (fst (preflight (default [] (fields (parse env content))))).

(** The number a decimal numeral (digits, then possibly a point and more
    digits) denotes. *)
Definition digit (c : N) : option Z :=
  if (48 <=? c) && (c <=? 57) then Some (Z.of_N c - 48)%Z else None.

Fixpoint digitsValue (acc : Z) (s : list N) : option Z :=
  match s with
  | [] => Some acc
  | c :: r =>
      match digit c with
      | Some d => digitsValue (10 * acc + d)%Z r
      | None => None
      end
  end.

Fixpoint uptoPoint (s : list N) : list N * option (list N) :=
  match s with
  | [] => ([], None)
  | c :: r =>
      if c =? 46 then ([], Some r)
      else let '(i, fr) := uptoPoint r in (c :: i, fr)
  end.

Definition decimalValue (s : list N) : option Q :=
  match uptoPoint s with
  | ([], _) => None
  | (i, None) => option_map inject_Z (digitsValue 0 i)
  | (_, Some []) => None
  | (i, Some fr) =>
      match digitsValue 0 i, digitsValue 0 fr with
      | Some a, Some b =>
          Some (inject_Z a + Qmake b (Pos.pow 10 (Pos.of_nat (length fr))))%Q
      | _, _ => None
      end
  end.

(** ** Sample environments *)

(** A clock whose [n]-th reading is rendered as the numeral of [n]. *)
Definition clock (n : nat) : list N := numberToString (Z.of_nat n).

(** The [defaultValue]s of the seven inputs. *)
Definition defaults : hyperparameters :=
  {| cv_folds := u16 "5";
     rf_estimators := u16 "100";
     xgb_estimators := u16 "100";
     lgbm_estimators := u16 "100";
     xgb_max_depth := u16 "15";
     lgbm_max_depth := u16 "7";
     learning_rate := u16 "0.05" |}.

Definition newline : string := String (ascii_of_nat 10) EmptyString.

Definition csv (content : string) : file :=
  {| name := u16 "planets.csv"; text := Resolves (u16 content) |}.

(** The text of a file that can be read. *)
Definition text_of (f : file) : list N :=
  match text f with
  | Resolves content => content
  | Rejects _ => []
  end.

(** A parser that reads one table whatever the text. *)
Definition parsesTo (header : list string) (rows : list (list string))
  : list N -> parseResult :=
  fun _ =>
    {| errors := [];
       data := List.map (fun cells =>
                 List.map (fun hc => (u16 (fst hc), VString (u16 (snd hc))))
                          (List.combine header cells)) rows;
       fields := Some (List.map u16 header) |}.

Definition scenario (f : option file) (header : list string)
    (rows : list (list string))
    (inserted : settled (option (list N))) (fetched : settled response)
  : environment :=
  {| selectedFile := f;
     trainTestSplit := 80;
     form := defaults;
     toLocaleTimeString := clock;
     parse := parsesTo header rows;
     insert := fun _ => inserted;
     fetch := fun _ => fetched |}.

Definition trained : settled response :=
  Resolves {| ok := true;
              json := Resolves (JsonData VUndefined (VObject (u16 "[object Object]"))) |}.

Definition kepler : file := csv ("koi_teq,koi_period" ++ newline ++ "300,12").

(** Nothing selected. *)
Definition nothingSelected : environment :=
  scenario None [] [] (Resolves None) trained.

(** A file without any spelling of the equilibrium temperature. *)
Definition missingColumn : environment :=
  scenario (Some (csv ("kepid,koi_period" ++ newline ++ "1,12")))
    ["kepid"; "koi_period"]%string [["1"; "12"]%string] (Resolves None) trained.

(** The bulk insert answers with an error. *)
Definition insertRefused : environment :=
  scenario (Some kepler) ["koi_teq"; "koi_period"]%string
    [["300"; "12"]%string]
    (Resolves (Some (u16 "permission denied"))) trained.

(** The training server cannot be reached. *)
Definition offline : environment :=
  scenario (Some kepler) ["koi_teq"; "koi_period"]%string
    [["300"; "12"]%string]
    (Resolves None) (Rejects (ErrorObject failed_to_fetch)).

(** The training server answers 500 with a JSON body. *)
Definition serverError (error : value) : environment :=
  scenario (Some kepler) ["koi_teq"; "koi_period"]%string
    [["300"; "12"]%string]
    (Resolves None)
    (Resolves {| ok := false; json := Resolves (JsonData error VUndefined) |}).

Definition unexpected_token : list N :=
  u16 "Unexpected token '<' is not valid JSON".

(** The training server answers 502 with a page that is no JSON. *)
Definition badGateway : environment :=
  scenario (Some kepler) ["koi_teq"; "koi_period"]%string
    [["300"; "12"]%string]
    (Resolves None)
    (Resolves {| ok := false; json := Rejects (ErrorObject unexpected_token) |}).

(** Everything goes well; the server answers with metrics. *)
Definition allGood : environment :=
  scenario (Some kepler) ["koi_teq"; "koi_period"]%string
    [["300"; "12"]%string] (Resolves None) trained.

(** The file cannot be read: a [DOMException], which is no [Error] in
    older engines, is thrown. *)
Definition unreadable : environment :=
  scenario (Some {| name := u16 "planets.csv";
                    text := Rejects (ThrownValue (VObject (u16 "NotReadableError"))) |})
    [] [] (Resolves None) trained.

(** The parser reports errors. *)
Definition malformed : environment :=
  {| selectedFile := Some kepler;
     trainTestSplit := 80;
     form := defaults;
     toLocaleTimeString := clock;
     parse := fun _ =>
       {| errors := [u16 "Quoted field unterminated"; u16 "Too few fields"];
          data := [];
          fields := Some [u16 "koi_teq"] |};
     insert := fun _ => Resolves None;
     fetch := fun _ => trained |}.

(** The bulk insert throws instead of answering. *)
Definition insertThrows : environment :=
  scenario (Some kepler) ["koi_teq"; "koi_period"]%string
    [["300"; "12"]%string]
    (Rejects (ErrorObject (u16 "NetworkError when attempting to fetch resource.")))
    trained.

(** Some state the component may be in when the form is submitted. *)
Definition idle (log : list (list N)) : state :=
  {| trainingStatus := log; isTraining := false; metricsJson := VNull |}.

Global Arguments stamp : simpl never.
Global Arguments preflight : simpl never.
Global Arguments rowsToInsert : simpl never.
Global Arguments buildFormData : simpl never.
Global Arguments lengthString : simpl never.

End Handler.


(* ===================================================================== *)
(** * The other version of the page                                       *)
(* ===================================================================== *)

(** The file holds a second version of [ModelTrainingPage] (from line
    541).  It checks the name of the chosen file in [handleFileChange],
    cleans the parsed rows without the alias table, and sends the form
    built by [new FormData(form)] to a configurable address. *)
Module DatasetPage.
Import JS Handler.

(** [s.endsWith(suffix)] *)
Definition endsWith (s suffix : list N) : bool :=
  bool_decide (skipn (length s - length suffix) s = suffix).

(** [s.startsWith(prefix)] at the current position of a search. *)
Fixpoint startsWith (s prefix : list N) : bool :=
  match prefix, s with
  | [], _ => true
  | _ :: _, [] => false
  | p :: prefix', c :: s' => (c =? p) && startsWith s' prefix'
  end.

(** [s.includes(needle)] *)
Fixpoint includes (s needle : list N) : bool :=
  startsWith s needle ||
  match s with
  | [] => false
  | _ :: s' => includes s' needle
  end.

(** ** [handleFileChange] *)

Inductive event : Type :=
| SetSelectedFile (f : file)
| SetStatus (u : statusUpdate).

Definition msg_not_csv : list N := u16 "Error: Please upload a .csv file".
Definition msg_selected (name : list N) : list N := u16 "File selected: " ++ name.

(** The handler of the file input, on [e.target.files] ([None] for
    [null]) and the rendering of the clock at that moment.  In
    [file.name.toLowerCase()] the code units outside ASCII take no part:
    none of them becomes a unit of [".csv"]. *)
Definition handleFileChange (files : option (list file)) (timestamp : list N)
  : list event :=
  match files with
  | None | Some [] => []
  | Some (file :: _) =>
      if negb (endsWith (toLowerCase (name file)) (u16 ".csv"))
      then [SetStatus (Append (stamp timestamp msg_not_csv))]
      else [SetSelectedFile file;
            SetStatus (Append (stamp timestamp (msg_selected (name file))))]
  end.

(** The selection after the events, starting from [selected]. *)
Definition selection (selected : option file) (events : list event) : option file :=
  fold_left (fun sel ev => match ev with
                           | SetSelectedFile f => Some f
                           | SetStatus _ => sel
                           end) events selected.

(** "The name ends in [.csv], in any letter case", unit by unit. *)
Definition csvName (name : list N) : bool :=
  match rev name with
  | v :: s :: c :: dot :: _ =>
      (dot =? 46) && ((c =? 99) || (c =? 67)) &&
      ((s =? 115) || (s =? 83)) && ((v =? 118) || (v =? 86))
  | _ => false
  end.

(** The unit [c] is [t] or, for a small letter [t], its capital. *)
Definition lowersTo (t c : N) : bool :=
  (c =? t) || ((97 <=? t) && (t <=? 122) && (c + 32 =? t)).

(** ** The cleaning of the parsed rows *)

Section Cleaning.

(** The numbers of JavaScript other than [NaN], and [parseFloat] with
    [None] for [NaN]. *)
Variable number : Type.
Variable parseFloat : value -> option number.

(** A value of a cleaned row: a value left as it was (or [null]), or
    the number a cell was parsed to. *)
Inductive cleaned : Type :=
| Raw (v : value)
| Num (x : number).

(** [cleanedKey.toLowerCase().includes("feature") ||
     cleanedKey.toLowerCase().includes("data")] *)
Definition numericColumn (cleanedKey : list N) : bool :=
  includes (toLowerCase cleanedKey) (u16 "feature") ||
  includes (toLowerCase cleanedKey) (u16 "data").

(** What is stored for a cell of the column [cleanedKey]. *)
Definition cleanValue (cleanedKey : list N) (v : value) : cleaned :=
  if isBlankString v then Raw VNull
  else if numericColumn cleanedKey then
    match parseFloat v with
    | None => Raw VNull
    | Some numberValue => Num numberValue
    end
  else Raw v.

(** One turn of the [for (const key in row)] loop. *)
Definition cleanCell (cleanedRow : gmap (list N) cleaned) (cell : list N * value)
  : gmap (list N) cleaned :=
  let '(key, v) := cell in
  let cleanedKey := trim key in
  if negb (bool_decide (cleanedKey = []))
  then <[cleanedKey := cleanValue cleanedKey v]> cleanedRow
  else cleanedRow.

(** The callback of [rawRows.map]. *)
Definition cleanRow (row : list (list N * value)) : gmap (list N) cleaned :=
  fold_left cleanCell row ∅.

End Cleaning.

Arguments Raw {number} v.
Arguments Num {number} x.

(** ** The form that is sent *)

Definition named (name : list N) (entry : list N * formValue) : bool :=
  bool_decide (fst entry = name).

(** [fd.set(name, v)]: the first entry of that name is replaced and the
    others of that name are removed; without such an entry the new one
    is appended. *)
Fixpoint replaceFirst (name : list N) (v : formValue) (fd : formData) : formData :=
  match fd with
  | [] => []
  | entry :: rest =>
      if named name entry
      then (name, v) :: List.filter (fun e => negb (named name e)) rest
      else entry :: replaceFirst name v rest
  end.

Definition formSet (name : list N) (v : formValue) (fd : formData) : formData :=
  if existsb (named name) fd then replaceFirst name v fd
  else fd ++ [(name, v)].

(** [fd], from the entries [new FormData(form)] collects. *)
Definition buildFd (controls : formData) (trainTestSplit : Z) (selectedFile : file)
  : formData :=
  formSet (u16 "file") (FormFile selectedFile)
    (formSet (u16 "train_test_split")
       (FormText (hundredthsToString trainTestSplit)) controls).

(** ** The address of the training endpoint *)

(** [base?.toString()] for a setting that is a string or missing. *)
Definition optionalToString (base : option (list N)) : value :=
  match base with
  | Some s => VString s
  | None => VUndefined
  end.

(** [a + b] where [b] is a string. *)
Definition plusString (a : value) (b : list N) : value :=
  VString (toString a ++ b).

(** [import.meta.env.VITE_API_BASE?.toString() + "/api/train" ||
     "/api/train"]: the sum binds tighter than the alternative. *)
Definition apiUrl (VITE_API_BASE : option (list N)) : value :=
  orElse (plusString (optionalToString VITE_API_BASE) (u16 "/api/train"))
         (VString (u16 "/api/train")).

End DatasetPage.

(* ===================================================================== *)
(** * The score board of the trivia game                                  *)
(* ===================================================================== *)

(** [HuntPlanetsGame.tsx] keeps the scores in the array
    [FAKE_LEADERBOARD], which the stand-in for the Supabase client reads
    and updates in place.  Scores are integers: the game moves them by
    100 and 50. *)
Module Game.
Import JS.

(** An entry [{ username, score }] of the board. *)
Definition entry : Type := (list N * Z)%type.

Definition FAKE_LEADERBOARD : list entry :=
  [ (u16 "CosmicExplorer", 1250%Z);
    (u16 "Stargazer_1", 1100%Z);
    (u16 "PlanetHunter_X", 980%Z) ].

(** ** The stand-in client *)

(** [Array.prototype.sort] is stable: with the comparator
    [(a, b) => b.score - a.score] it orders the entries by falling
    score and leaves entries of equal score in their former order.
    Inserting the entries one by one, from the last to the first, each
    in front of the first entry that does not score more, computes this
    order. *)
Fixpoint insertByScore (x : entry) (sorted : list entry) : list entry :=
  match sorted with
  | [] => [x]
  | y :: rest =>
      if (snd x <? snd y)%Z then y :: insertByScore x rest
      else x :: y :: rest
  end.

Definition sortByScore (board : list entry) : list entry :=
  foldr insertByScore [] board.

(** [from().select().order().limit()]: the array is sorted in place and
    its first three entries are the data.  The result is the data and
    the array as it is left. *)
Definition selectTop3 (board : list entry) : list entry * list entry :=
  (firstn 3 (sortByScore board), sortByScore board).

Definition isUser (value : list N) (e : entry) : bool :=
  bool_decide (fst e = value).

(** [Math.max(...scores)] of a list that is not empty. *)
Definition maxOf (first : Z) (others : list Z) : Z :=
  fold_left Z.max others first.

(** [from().select().eq(column, value).order().limit()]: the score of
    the one entry of the data, the best score of the user or 0. *)
Definition selectTopScore (board : list entry) (value : list N) : Z :=
  match List.map snd (List.filter (isUser value) board) with
  | [] => 0
  | first :: others => maxOf first others
  end.

(** The update of the first entry of the user, when [insert] finds
    one. *)
Fixpoint raiseFirst (username : list N) (score : Z) (board : list entry)
  : list entry :=
  match board with
  | [] => []
  | e :: rest =>
      if isUser username e
      then (if (snd e <? score)%Z then (fst e, score) else e) :: rest
      else e :: raiseFirst username score rest
  end.

(** [from().insert(newData)], on the array. *)
Definition insert (board : list entry) (username : list N) (score : Z)
  : list entry :=
  if existsb (isUser username) board
  then raiseFirst username score board
  else board ++ [(username, score)].

(** ** The component *)

(** The state of the component that [saveScore] reads and sets. *)
Record state : Type :=
  { score : Z;
    username : list N;
    leaderboard : list entry;
    saveMessage : list N;
    saveError : list N;
    saving : bool }.

Definition setLeaderboard (l : list entry) (st : state) : state :=
  {| score := score st; username := username st; leaderboard := l;
     saveMessage := saveMessage st; saveError := saveError st;
     saving := saving st |}.

Definition setSaveMessage (m : list N) (st : state) : state :=
  {| score := score st; username := username st;
     leaderboard := leaderboard st;
     saveMessage := m; saveError := saveError st;
     saving := saving st |}.

Definition setSaveError (m : list N) (st : state) : state :=
  {| score := score st; username := username st;
     leaderboard := leaderboard st;
     saveMessage := saveMessage st; saveError := m;
     saving := saving st |}.

Definition setSaving (b : bool) (st : state) : state :=
  {| score := score st; username := username st;
     leaderboard := leaderboard st;
     saveMessage := saveMessage st; saveError := saveError st;
     saving := b |}.

(** [loadTop3()], on the component and the array. *)
Definition loadTop3 (st : state) (board : list entry) : state * list entry :=
  let '(data, board') := selectTop3 board in
  (setLeaderboard data st, board').

Definition msg_enter_username : list N :=
  u16 "Please enter a username before saving.".
Definition msg_saved : list N := u16 "New high score saved!".
Definition msg_not_saved : list N := u16 "Score not saved - not a new high score".

(** [x || 0] for a number. *)
Definition orZero (x : Z) : Z := if (x =? 0)%Z then 0%Z else x.

(** [saveScore()], on the component and the array.  The stand-in client
    neither rejects nor throws, so the [catch] block is never entered;
    its [insert] does not read the [user_id] the handler looks up. *)
Definition saveScore (st : state) (board : list entry) : state * list entry :=
  let st := setSaveError [] (setSaveMessage [] st) in
  match trim (username st) with
  | [] => (setSaveError msg_enter_username st, board)
  | name =>
      let st := setSaving true st in
      let currentHighScore := orZero (selectTopScore board name) in
      let '(st, board) :=
        if (currentHighScore <? score st)%Z
        then (setSaveMessage msg_saved st, insert board name (score st))
        else (setSaveMessage msg_not_saved st, board) in
      let '(st, board) := loadTop3 st board in
      (setSaving false st, board)
  end.

(** ** Vocabulary for the statements about the board *)

(** The scores fall (or stay) along the list. *)
Fixpoint falling (l : list entry) : Prop :=
  match l with
  | [] => True
  | x :: rest => Forall (fun y => (snd y <= snd x)%Z) rest /\ falling rest
  end.

(** The best score of a user on the board, 0 without an entry. *)
Definition best (board : list entry) (user : list N) : Z :=
  selectTopScore board user.

End Game.

(* ===================================================================== *)
(** * Properties of the column mapper                                     *)
(* ===================================================================== *)

Module MapperFacts.
Import JS ColumnMapper.

(** Case analysis on the comparisons of a code unit with constants,
    discarding the impossible combinations as they appear. *)
Ltac units :=
  repeat (match goal with
          | |- context [N.leb ?a ?b] => destruct (N.leb_spec a b)
          | |- context [N.eqb ?a ?b] => destruct (N.eqb_spec a b)
          end; simpl; try lia; try reflexivity).

Lemma omap_rev {A B} (f : A -> option B) (l : list A) :
  omap f (rev l) = rev (omap f l).
Proof.
  induction l as [|a l IH]; [reflexivity|].
  simpl. rewrite omap_app, IH. simpl.
  destruct (f a); simpl; [reflexivity | now rewrite app_nil_r].
Qed.

(** A unit that [trim] may remove is neither a letter nor a digit. *)
Lemma whitespace_not_alnum c : isWhiteSpace c = true -> letterOrDigit c = None.
Proof.
  intros H. destruct (letterOrDigit c) eqn:L; [exfalso|reflexivity].
  assert (R : 48 <= c <= 122 \/ c = 0x212A \/ c = 0x0130).
  { revert L. unfold letterOrDigit. units; try discriminate. }
  revert H. unfold isWhiteSpace. units; try discriminate.
Qed.

Lemma foldedAlnum_trimStart s : foldedAlnum (trimStart s) = foldedAlnum s.
Proof.
  unfold foldedAlnum.
  induction s as [|c s IH]; [reflexivity|].
  simpl. destruct (isWhiteSpace c) eqn:W; [|reflexivity].
  now rewrite (whitespace_not_alnum c W).
Qed.

Lemma foldedAlnum_trim s : foldedAlnum (trim s) = foldedAlnum s.
Proof.
  unfold trim, trimEnd.
  pose proof foldedAlnum_trimStart as T. unfold foldedAlnum in *.
  now rewrite omap_rev, T, <- omap_rev, rev_involutive, T.
Qed.

(** Lower-casing one unit and keeping [a-z0-9] is the case folding of a
    letter or digit. *)
Lemma strip_lowerUnit c :
  stripNonAlnum (lowerUnit c) = option_list (letterOrDigit c).
Proof.
  unfold stripNonAlnum, lowerUnit, letterOrDigit, isLowerAlnum.
  units.
Qed.

Lemma strip_toLowerCase s : stripNonAlnum (toLowerCase s) = foldedAlnum s.
Proof.
  unfold toLowerCase, foldedAlnum.
  induction s as [|c s IH]; [reflexivity|].
  simpl. unfold stripNonAlnum in *.
  rewrite List.filter_app, IH.
  pose proof (strip_lowerUnit c) as L. unfold stripNonAlnum in L. rewrite L.
  now destruct (letterOrDigit c).
Qed.

(** The normalisation of the code computes the case-folded sequence of
    letters and digits of the specification. *)
Lemma normalizeKey_foldedAlnum header : normalizeKey header = foldedAlnum header.
Proof.
  unfold normalizeKey. now rewrite strip_toLowerCase, foldedAlnum_trim.
Qed.


Lemma normalizeKey_alnum header : forallb isLowerAlnum (normalizeKey header) = true.
Proof.
  apply forallb_forall. intros c Hc.
  unfold normalizeKey, stripNonAlnum in Hc.
  now apply List.filter_In in Hc.
Qed.

(** Own properties of the table are canonical field names. *)
Lemma own_canonical k v :
  NORMALIZED_COLUMN_MAP !! k = Some v ->
  exists f, v = VString f /\ f ∈ canonicalFields /\ truthy v = true.
Proof.
  intros H. apply elem_of_list_to_map_2 in H.
  apply list_elem_of_In in H. unfold aliasEntries in H.
  apply List.in_map_iff in H as [[a f] [E Hin]].
  simpl in E. injection E as <- <-.
  exists (u16 f). split; [reflexivity|]. split.
  - apply list_elem_of_In. unfold canonicalFields.
    apply List.in_map_iff. now exists (a, f).
  - revert Hin. unfold aliases. simpl.
    intros Hin.
    repeat (destruct Hin as [Hin|Hin];
            [injection Hin as <- <-; reflexivity|]).
    destruct Hin.
Qed.

(** Among the names made of [a-z0-9] only, [Object.prototype] has just
    [constructor]. *)
Lemma inherited_normalized k v :
  forallb isLowerAlnum k = true ->
  Object_prototype !! k = Some v ->
  k = u16 "constructor" /\ v = Object_constructor.
Proof.
  intros Hk H. apply elem_of_list_to_map_2 in H.
  apply list_elem_of_In in H. simpl in H.
  destruct H as [H|H]; [injection H as <- <-; now split|].
  repeat (destruct H as [H|H];
          [injection H as <- <-; vm_compute in Hk; discriminate Hk|]).
  destruct H.
Qed.

(** The three possible results of the look-up of a header. *)
Lemma dbKeyOf_cases header :
  (exists f, NORMALIZED_COLUMN_MAP !! normalizeKey header = Some (VString f)
             /\ f ∈ canonicalFields /\ dbKeyOf header = VString f
             /\ truthy (VString f) = true)
  \/ (NORMALIZED_COLUMN_MAP !! normalizeKey header = None
      /\ normalizeKey header = u16 "constructor"
      /\ dbKeyOf header = Object_constructor)
  \/ (NORMALIZED_COLUMN_MAP !! normalizeKey header = None
      /\ dbKeyOf header = VUndefined).
Proof.
  unfold dbKeyOf, get.
  destruct (NORMALIZED_COLUMN_MAP !! normalizeKey header) as [v|] eqn:Own.
  - left. destruct (own_canonical _ _ Own) as (f & -> & Hf & T).
    exists f. repeat split; assumption || reflexivity.
  - right.
    destruct (Object_prototype !! normalizeKey header) as [v|] eqn:Inh.
    + left. destruct (inherited_normalized _ _ (normalizeKey_alnum header) Inh)
        as [E ->]. repeat split; assumption || reflexivity.
    + right. split; reflexivity.
Qed.

Example koi_teq_maps :
  mapHeader (u16 "koi_teq") = Canonical (u16 "equilibrium_temp_K").
Proof. vm_compute. reflexivity. Qed.

Example spellings_agree :
  List.map mapHeader
    [u16 "KOI_TEQ"; u16 "  koi teq"; u16 "Koi-Teq."; 0x212A :: u16 "oi_teq"]
  = List.repeat (Canonical (u16 "equilibrium_temp_K")) 4.
Proof. vm_compute. reflexivity. Qed.

Example unknown_header_unmapped : mapHeader (u16 "kepid") = Unmapped.
Proof. vm_compute. reflexivity. Qed.

(** C2. The look-up of a header, normalised as the code does (trim, lower
    case, removal of everything outside [a-z0-9]), gives the same result
    for any two headers whose case-folded sequences of letters and digits
    are equal: the same canonical field, or unmapped for both.  (Being a
    function, the look-up is deterministic.) *)
Theorem C2_same_mapping_up_to_case_space_punctuation (h1 h2 : list N) :
  foldedAlnum h1 = foldedAlnum h2 ->
  normalizeKey h1 = normalizeKey h2 /\
  dbKeyOf h1 = dbKeyOf h2 /\
  mapHeader h1 = mapHeader h2.
Proof.
  intros E.
  assert (K : normalizeKey h1 = normalizeKey h2)
    by now rewrite !normalizeKey_foldedAlnum.
  unfold mapHeader, dbKeyOf. now rewrite K.
Qed.

Lemma C2_witness :
  normalizeKey (u16 " Koi_TEQ ") = normalizeKey (u16 "koi-teq") /\
  dbKeyOf (u16 " Koi_TEQ ") = dbKeyOf (u16 "koi-teq") /\
  mapHeader (u16 " Koi_TEQ ") = mapHeader (u16 "koi-teq").
Proof.
  apply (C2_same_mapping_up_to_case_space_punctuation
           (u16 " Koi_TEQ ") (u16 "koi-teq")).
  vm_compute. reflexivity.
Defined.

End MapperFacts.

(* ===================================================================== *)
(** * Properties of the row transformer                                   *)
(* ===================================================================== *)

Module TransformerFacts.
Import JS ColumnMapper RowTransformer MapperFacts.

Lemma mapCell_target mappedRow rawKey v :
  mapCell mappedRow (rawKey, v) =
  match target rawKey with
  | Some key => <[key := nullIfBlank v]> mappedRow
  | None => mappedRow
  end.
Proof. unfold mapCell, target, set. now destruct (truthy _). Qed.

Lemma target_cases rawKey :
  (exists f, NORMALIZED_COLUMN_MAP !! normalizeKey rawKey = Some (VString f)
             /\ f ∈ canonicalFields /\ target rawKey = Some f)
  \/ (NORMALIZED_COLUMN_MAP !! normalizeKey rawKey = None
      /\ normalizeKey rawKey = u16 "constructor"
      /\ target rawKey = Some inheritedKey)
  \/ (NORMALIZED_COLUMN_MAP !! normalizeKey rawKey = None
      /\ target rawKey = None).
Proof.
  unfold target.
  destruct (dbKeyOf_cases rawKey)
    as [(f & Own & Hf & -> & T) | [(Own & E & ->) | (Own & ->)]].
  - left. exists f. rewrite T. repeat split; assumption.
  - right; left. repeat split; assumption.
  - right; right. split; [assumption | reflexivity].
Qed.

(** An alias of a canonical field is written under that field. *)
Lemma target_alias rawKey f :
  NORMALIZED_COLUMN_MAP !! normalizeKey rawKey = Some (VString f) ->
  target rawKey = Some f.
Proof.
  intros Own.
  destruct (target_cases rawKey)
    as [(f' & Own' & _ & T) | [(Own' & _) | (Own' & _)]]; congruence.
Qed.

(** Later columns that are written elsewhere leave a key as it is. *)
Lemma fold_mapCell_untouched key (post : rawRow) mappedRow :
  Forall (fun cell => target (fst cell) <> Some key) post ->
  fold_left mapCell post mappedRow !! key = mappedRow !! key.
Proof.
  revert mappedRow. induction post as [|[k v] post IH]; intros m H.
  - reflexivity.
  - apply Forall_cons in H as [Hk Hpost]. cbn [fst] in Hk.
    cbn [fold_left]. rewrite (IH _ Hpost), mapCell_target.
    destruct (target k) as [key'|]; [|reflexivity].
    apply lookup_insert_ne. congruence.
Qed.

(** The value under a key is decided by the last column written there. *)
Lemma mapCells_last_write key (pre post : rawRow) rawKey v :
  target rawKey = Some key ->
  Forall (fun cell => target (fst cell) <> Some key) post ->
  mapCells (pre ++ (rawKey, v) :: post) !! key = Some (nullIfBlank v).
Proof.
  intros T Hpost. unfold mapCells.
  rewrite fold_left_app. cbn [fold_left].
  rewrite (fold_mapCell_untouched _ _ _ Hpost), mapCell_target, T.
  apply lookup_insert_eq.
Qed.

(** The keys of the mapped row are the targets of its columns. *)
Lemma fold_mapCell_dom key (row : rawRow) mappedRow :
  key ∈ dom (fold_left mapCell row mappedRow) <->
  key ∈ dom mappedRow \/ Exists (fun cell => target (fst cell) = Some key) row.
Proof.
  revert mappedRow. induction row as [|[k v] row IH]; intros m.
  - cbn [fold_left]. rewrite Exists_nil. tauto.
  - cbn [fold_left]. rewrite IH, Exists_cons, mapCell_target. cbn [fst].
    destruct (target k) as [key'|].
    + rewrite dom_insert_L, elem_of_union, elem_of_singleton.
      split; [intros [[->|H]|H]|intros [H|[H|H]]]; auto.
      injection H as ->. auto.
    + split; [intros [H|H]|intros [H|[H|H]]]; auto. discriminate.
Qed.

Lemma mapCells_dom key (row : rawRow) :
  key ∈ dom (mapCells row) <->
  Exists (fun cell => target (fst cell) = Some key) row.
Proof.
  unfold mapCells. rewrite fold_mapCell_dom, dom_empty_L.
  split; [intros [H|H]|intros H]; auto. now apply not_elem_of_empty in H.
Qed.

Lemma transformRow_dom key (row : rawRow) :
  key ∈ dom (transformRow row) <-> key = k_source \/ key ∈ dom (mapCells row).
Proof.
  unfold transformRow, addSource, get.
  destruct (mapCells row !! k_source) as [s|] eqn:S.
  - destruct (truthy s).
    + split; [auto|]. intros [->|H]; [|exact H].
      apply elem_of_dom. exists s. exact S.
    + rewrite dom_insert_L, elem_of_union, elem_of_singleton. tauto.
  - replace (Object_prototype !! k_source) with (@None value)
      by (vm_compute; reflexivity).
    cbn [from_option id truthy].
    rewrite dom_insert_L, elem_of_union, elem_of_singleton. tauto.
Qed.

(** Reading [mappedRow.source] never reaches the prototype. *)
Lemma get_source (mappedRow : gmap (list N) value) :
  get mappedRow k_source = default VUndefined (mappedRow !! k_source).
Proof.
  unfold get. destruct (mappedRow !! k_source); [reflexivity|].
  vm_compute. reflexivity.
Qed.


Lemma trimStart_nil s : trimStart s = [] <-> whitespaceOnly s = true.
Proof.
  unfold whitespaceOnly. induction s as [|c s IH]; simpl; [tauto|].
  destruct (isWhiteSpace c); simpl; [exact IH|].
  split; discriminate.
Qed.

Lemma trimStart_head s c r : trimStart s = c :: r -> isWhiteSpace c = false.
Proof.
  induction s as [|a s IH]; simpl; [discriminate|].
  destruct (isWhiteSpace a) eqn:W; [exact IH|].
  intros E. injection E as <- _. exact W.
Qed.

Lemma whitespaceOnly_rev s : whitespaceOnly (rev s) = true -> whitespaceOnly s = true.
Proof.
  unfold whitespaceOnly. rewrite !forallb_forall.
  intros H c Hc. apply H. now apply in_rev in Hc.
Qed.

(** [value.trim() === ""] holds of the whitespace-only strings exactly. *)
Lemma trim_nil s : trim s = [] <-> whitespaceOnly s = true.
Proof.
  unfold trim, trimEnd. split.
  - intros H. apply trimStart_nil.
    assert (R : trimStart (rev (trimStart s)) = []).
    { destruct (trimStart (rev (trimStart s))); [reflexivity|].
      simpl in H. now destruct (rev l). }
    apply trimStart_nil, whitespaceOnly_rev in R.
    destruct (trimStart s) as [|c r] eqn:E; [reflexivity|].
    apply trimStart_head in E. simpl in R. now rewrite E in R.
  - intros H. apply trimStart_nil in H. now rewrite H.
Qed.

Lemma isBlankString_spec v :
  isBlankString v = true <-> exists s, v = VString s /\ whitespaceOnly s = true.
Proof.
  destruct v; simpl; try (split; [discriminate | intros (s' & E & _); discriminate]).
  split.
  - intros H. exists s. split; [reflexivity|]. apply trim_nil.
    now destruct (trim s).
  - intros (s' & E & W). injection E as <-. apply trim_nil in W. now rewrite W.
Qed.


Lemma addSource_other (mappedRow : gmap (list N) value) key :
  key <> k_source -> addSource mappedRow !! key = mappedRow !! key.
Proof.
  intros Hk. unfold addSource.
  destruct (truthy _); [reflexivity|].
  apply lookup_insert_ne. congruence.
Qed.

(** After [addSource] the record has a truthy [source]. *)
Lemma addSource_source (mappedRow : gmap (list N) value) :
  addSource mappedRow !! k_source =
  Some (if truthy (get mappedRow k_source) then get mappedRow k_source
        else uploaded_csv).
Proof.
  unfold addSource. destruct (truthy (get mappedRow k_source)) eqn:T.
  - rewrite get_source in *.
    destruct (mappedRow !! k_source); [reflexivity | discriminate T].
  - apply lookup_insert_eq.
Qed.

(** Only the key [source] of the table stands for the field [source]. *)
Lemma own_source k :
  NORMALIZED_COLUMN_MAP !! k = Some (VString k_source) -> k = u16 "source".
Proof.
  intros H. apply elem_of_list_to_map_2 in H.
  apply list_elem_of_In in H.
  assert (A : forallb
                (fun kv => implb (bool_decide (snd kv = VString k_source))
                                 (bool_decide (fst kv = u16 "source")))
                aliasEntries = true).
  { vm_compute. reflexivity. }
  rewrite forallb_forall in A. apply A in H. cbn [fst snd] in H.
  rewrite bool_decide_true in H by reflexivity.
  apply bool_decide_eq_true in H. exact H.
Qed.

Lemma target_source rawKey :
  target rawKey = Some k_source <-> normalizeKey rawKey = u16 "source".
Proof.
  split.
  - intros T.
    destruct (target_cases rawKey)
      as [(f & Own & _ & T') | [(_ & _ & T') | (_ & T')]];
      rewrite T' in T.
    + injection T as ->. now apply own_source.
    + vm_compute in T. discriminate T.
    + discriminate T.
  - intros E. apply target_alias. rewrite E. vm_compute. reflexivity.
Qed.

(** Every canonical field name, and [source], is itself an alias. *)
Lemma canonical_is_alias f :
  f ∈ canonicalFields -> is_Some (NORMALIZED_COLUMN_MAP !! normalizeKey f).
Proof.
  intros H. apply list_elem_of_In in H.
  assert (A : forallb
                (fun f => bool_decide
                   (is_Some (NORMALIZED_COLUMN_MAP !! normalizeKey f)))
                canonicalFields = true).
  { vm_compute. reflexivity. }
  rewrite forallb_forall in A. apply A in H.
  apply bool_decide_eq_true in H. exact H.
Qed.

(** The keys of an output record. *)
Lemma transformRow_keys (row : rawRow) key :
  key ∈ dom (transformRow row) ->
  key = k_source \/ key ∈ canonicalFields \/
  (key = inheritedKey /\
   Exists (fun cell => normalizeKey (fst cell) = u16 "constructor") row).
Proof.
  rewrite transformRow_dom, mapCells_dom, List.Exists_exists.
  intros [->|[[k v] [Hin T]]]; [left; reflexivity|]. right. cbn [fst] in T.
  destruct (target_cases k)
    as [(f & _ & Hf & T') | [(_ & E & T') | (_ & T')]];
    rewrite T' in T; [injection T as <- | injection T as <- | discriminate T].
  - left. exact Hf.
  - right. split; [reflexivity|].
    apply List.Exists_exists. exists (k, v). split; [exact Hin | exact E].
Qed.

(** As long as no column of the row is spelled like [constructor], the
    output keys are canonical field names or [source], and a header that
    is not an alias is never one of them. *)
Lemma transformRow_keys_canonical (row : rawRow) :
  Forall (fun cell => normalizeKey (fst cell) <> u16 "constructor") row ->
  (forall key, key ∈ dom (transformRow row) ->
               key = k_source \/ key ∈ canonicalFields) /\
  (forall header, NORMALIZED_COLUMN_MAP !! normalizeKey header = None ->
                  header ∉ dom (transformRow row)).
Proof.
  intros Hrow.
  assert (K : forall key, key ∈ dom (transformRow row) ->
                          key = k_source \/ key ∈ canonicalFields).
  { intros key H. apply transformRow_keys in H as [H|[H|[_ H]]]; auto.
    exfalso. apply List.Exists_exists in H as [cell [Hin E]].
    rewrite List.Forall_forall in Hrow. exact (Hrow cell Hin E). }
  split; [exact K|].
  intros header Hnone Hin.
  apply K in Hin as [->|Hin].
  - revert Hnone. vm_compute. discriminate.
  - apply canonical_is_alias in Hin as [v Hv]. congruence.
Qed.

(** C3.  The claim: for every row, the output record has only canonical
    field names and [source] as keys, and no key equal to a header that
    is not an alias.  The code: a column spelled like [constructor] is
    not an alias, yet its look-up in the object literal finds the
    inherited [Object] function, which is truthy; the cell is written
    under the rendering of that function, a key that is no canonical
    field, and that can equal another header of the row that is not an
    alias. *)
Theorem C3_inherited_constructor_is_written :
  NORMALIZED_COLUMN_MAP !! normalizeKey (u16 "constructor") = None /\
  transformRow koi_teq_and_constructor !! inheritedKey = Some (VString (u16 "x")) /\
  (inheritedKey ∉ canonicalFields) /\ inheritedKey <> k_source /\
  NORMALIZED_COLUMN_MAP !! normalizeKey inheritedKey = None /\
  inheritedKey ∈ dom (transformRow constructor_and_its_rendering).
Proof.
  refine (conj _ (conj _ (conj _ (conj _ (conj _ _))))).
  - vm_compute. reflexivity.
  - vm_compute. reflexivity.
  - apply (bool_decide_eq_false_1 (inheritedKey ∈ canonicalFields)).
    vm_compute. reflexivity.
  - vm_compute. discriminate.
  - vm_compute. reflexivity.
  - apply elem_of_dom. exists (VString (u16 "x")). vm_compute. reflexivity.
Qed.


Lemma nullIfBlank_blank s : whitespaceOnly s = true -> nullIfBlank (VString s) = VNull.
Proof.
  intros W. unfold nullIfBlank.
  replace (isBlankString (VString s)) with true; [reflexivity|].
  symmetry. apply isBlankString_spec. now exists s.
Qed.

Lemma nullIfBlank_other v :
  (forall s, v = VString s -> whitespaceOnly s = false) -> nullIfBlank v = v.
Proof.
  intros H. unfold nullIfBlank.
  destruct (isBlankString v) eqn:B; [|reflexivity].
  apply isBlankString_spec in B as (s & E & W).
  rewrite (H s E) in W. discriminate W.
Qed.

Example koi_teq_blank :
  transformRow [(u16 "koi_teq", VString [])]
  = <[u16 "equilibrium_temp_K" := VNull]> (<[k_source := uploaded_csv]> ∅).
Proof. vm_compute. reflexivity. Qed.

(** C4.  The row [{koi_teq: ""}] becomes [{equilibrium_temp_K: null,
    source: "uploaded_csv"}].  For a column whose header is an alias of
    the canonical field [f]: a cell that is an empty or whitespace-only
    string is written as [null] under [f], any other cell is written
    unchanged, and the value written by the last column that stands for
    [f] is the one the mapped row holds (and, for a field other than
    [source], the one of the output record). *)
Theorem C4_blank_cells_become_null :
  transformRow [(u16 "koi_teq", VString [])]
    = <[u16 "equilibrium_temp_K" := VNull]> (<[k_source := uploaded_csv]> ∅) /\
  forall (rawKey f : list N),
    NORMALIZED_COLUMN_MAP !! normalizeKey rawKey = Some (VString f) ->
    (forall mappedRow s, whitespaceOnly s = true ->
       mapCell mappedRow (rawKey, VString s) = <[f := VNull]> mappedRow) /\
    (forall mappedRow v, (forall s, v = VString s -> whitespaceOnly s = false) ->
       mapCell mappedRow (rawKey, v) = <[f := v]> mappedRow) /\
    (forall (pre post : rawRow) v,
       Forall (fun cell => target (fst cell) <> Some f) post ->
       mapCells (pre ++ (rawKey, v) :: post) !! f = Some (nullIfBlank v) /\
       (f <> k_source ->
        transformRow (pre ++ (rawKey, v) :: post) !! f = Some (nullIfBlank v))).
Proof.
  split; [exact koi_teq_blank|].
  intros rawKey f Own. pose proof (target_alias _ _ Own) as T.
  repeat split.
  - intros m s W. now rewrite mapCell_target, T, nullIfBlank_blank.
  - intros m v H. now rewrite mapCell_target, T, nullIfBlank_other.
  - now apply mapCells_last_write.
  - intros Hf. unfold transformRow. rewrite addSource_other by exact Hf.
    now apply mapCells_last_write.
Qed.

Lemma C4_witness :
  mapCell ∅ (u16 "Pl_Eqt", VString (u16 "   "))
  = <[u16 "equilibrium_temp_K" := VNull]> ∅.
Proof.
  destruct C4_blank_cells_become_null as [_ H].
  destruct (H (u16 "Pl_Eqt") (u16 "equilibrium_temp_K")) as [B _].
  - vm_compute. reflexivity.
  - apply B. vm_compute. reflexivity.
Defined.

Example blank_source_defaulted :
  transformRow [(u16 "koi_teq", VString (u16 "300")); (u16 "Source", VString (u16 "  "))]
  = <[u16 "equilibrium_temp_K" := VString (u16 "300")]>
      (<[k_source := uploaded_csv]> ∅).
Proof. vm_compute. reflexivity. Qed.

(** C10.  The output record always has a truthy [source], never [null]:
    it is ["uploaded_csv"] whenever the mapped row's [source] is falsy,
    so when the row has no column standing for [source], and also when
    the last such column holds an empty or whitespace-only string (which
    was first written as [null]). *)
Theorem C10_source_defaults_when_falsy (row : rawRow) :
  (exists v, transformRow row !! k_source = Some v /\ truthy v = true) /\
  transformRow row !! k_source <> Some VNull /\
  (truthy (get (mapCells row) k_source) = false ->
   transformRow row !! k_source = Some uploaded_csv) /\
  (Forall (fun cell => normalizeKey (fst cell) <> u16 "source") row ->
   transformRow row !! k_source = Some uploaded_csv) /\
  (forall (pre post : rawRow) rawKey s,
     row = pre ++ (rawKey, VString s) :: post ->
     normalizeKey rawKey = u16 "source" ->
     whitespaceOnly s = true ->
     Forall (fun cell => normalizeKey (fst cell) <> u16 "source") post ->
     mapCells row !! k_source = Some VNull /\
     transformRow row !! k_source = Some uploaded_csv).
Proof.
  unfold transformRow. rewrite addSource_source.
  assert (F : forall l : rawRow,
             Forall (fun cell => normalizeKey (fst cell) <> u16 "source") l ->
             Forall (fun cell => target (fst cell) <> Some k_source) l).
  { intros l H. eapply Forall_impl; [exact H|].
    intros cell N T. apply target_source in T. exact (N T). }
  assert (B : forall (pre post : rawRow) rawKey s,
             row = pre ++ (rawKey, VString s) :: post ->
             normalizeKey rawKey = u16 "source" ->
             whitespaceOnly s = true ->
             Forall (fun cell => normalizeKey (fst cell) <> u16 "source") post ->
             mapCells row !! k_source = Some VNull).
  { intros pre post rawKey s -> E W H. apply target_source in E.
    rewrite (mapCells_last_write _ _ _ _ _ E (F _ H)).
    rewrite nullIfBlank_blank by exact W. reflexivity. }
  refine (conj _ (conj _ (conj _ (conj _ _)))).
  - destruct (truthy (get (mapCells row) k_source)) eqn:T; eauto.
  - destruct (truthy (get (mapCells row) k_source)) eqn:T.
    + intros E. injection E as E. rewrite E in T. discriminate T.
    + discriminate.
  - intros ->. reflexivity.
  - intros H. apply F in H. rewrite get_source.
    unfold mapCells. rewrite (fold_mapCell_untouched _ _ _ H), lookup_empty.
    reflexivity.
  - intros pre post rawKey s E K W H.
    pose proof (B pre post rawKey s E K W H) as L.
    split; [exact L|]. rewrite get_source, L. reflexivity.
Qed.

Lemma C10_witness :
  transformRow [(u16 "koi_teq", VString (u16 "300")); (u16 "Source", VString (u16 "  "))]
    !! k_source = Some uploaded_csv.
Proof.
  pose proof (C10_source_defaults_when_falsy
    [(u16 "koi_teq", VString (u16 "300")); (u16 "Source", VString (u16 "  "))])
    as (_ & _ & _ & _ & H).
  apply (H [(u16 "koi_teq", VString (u16 "300"))] [] (u16 "Source") (u16 "  ")).
  - reflexivity.
  - vm_compute. reflexivity.
  - vm_compute. reflexivity.
  - constructor.
Defined.

End TransformerFacts.

(* ===================================================================== *)
(** * Properties of the submission handler                                *)
(* ===================================================================== *)

Module HandlerFacts.
Import JS ColumnMapper RowTransformer Handler MapperFacts.
Local Open Scope handler_scope.

(** ** The pre-flight check *)

Lemma setAdd_elem v w s : v ∈ setAdd w s <-> v = w \/ v ∈ s.
Proof.
  unfold setAdd. destruct (decide (w ∈ s)) as [Hin|Hout].
  - split; [auto|]. intros [->|H]; assumption.
  - rewrite elem_of_app, list_elem_of_singleton. tauto.
Qed.

Lemma preflight_mapped v (csvHeaders : list (list N)) acc :
  v ∈ fst (fold_left preflightStep csvHeaders acc) <->
  v ∈ fst acc \/
  Exists (fun header => header <> [] /\ truthy (dbKeyOf header) = true
                        /\ dbKeyOf header = v) csvHeaders.
Proof.
  revert acc. induction csvHeaders as [|h hs IH]; intros acc.
  - cbn [fold_left]. rewrite Exists_nil. tauto.
  - cbn [fold_left]. rewrite IH, Exists_cons. clear IH.
    unfold preflightStep. destruct h as [|c h].
    + split; [intros [H|H]|intros [H|[H|H]]]; auto.
      destruct H as [H _]. contradiction H. reflexivity.
    + destruct (truthy (dbKeyOf (c :: h))) eqn:T; cbn [fst snd].
      * rewrite setAdd_elem.
        split; [intros [[->|H]|H]|intros [H|[(_ & _ & <-)|H]]]; auto.
        all: try (right; left; split; [discriminate|];
                  split; [exact T|reflexivity]).
      * split; [intros [H|H]|intros [H|[(_ & H & _)|H]]]; auto.
        discriminate H.
Qed.

(** [mappedHeaders.has("equilibrium_temp_K")] holds exactly when some
    header is an alias of that field. *)
Lemma preflight_has_equilibrium (csvHeaders : list (list N)) :
  setHas equilibrium_temp_K (fst (preflight csvHeaders)) = true <->
  Exists (fun header =>
            NORMALIZED_COLUMN_MAP !! normalizeKey header = Some equilibrium_temp_K)
         csvHeaders.
Proof.
  unfold setHas, preflight. rewrite bool_decide_eq_true, preflight_mapped.
  cbn [fst]. rewrite !List.Exists_exists. split.
  - intros [H|(h & Hin & Hne & T & E)]; [apply elem_of_nil in H; destruct H|].
    exists h. split; [exact Hin|].
    destruct (dbKeyOf_cases h)
      as [(f & Own & _ & D & _) | [(_ & _ & D) | (_ & D)]];
      rewrite D in E; try discriminate E.
    rewrite Own, E. reflexivity.
  - intros (h & Hin & Own). right. exists h. split; [exact Hin|].
    destruct (dbKeyOf_cases h)
      as [(f & Own' & _ & D & T) | [(Own' & _) | (Own' & _)]];
      rewrite Own' in Own; try discriminate Own.
    injection Own as Own. rewrite D. rewrite Own in *.
    split; [|split; [exact T|reflexivity]].
    intros ->. revert Own'. vm_compute. discriminate.
Qed.

(** ** Running the handler *)

Ltac run_handler :=
  cbv beta iota zeta delta
    [bind emit tick ret return_ throw await tryCatch tryFinally when
     appendStatus uploadStage uploadCatch trainStage trainCatch trainFinally
     data_error data_metrics_json start];
  cbn [fst snd ticks emitted negb app].

(** Follow every path of the handler: split on what the environment
    answers wherever the run depends on it. *)
Ltac walk :=
  run_handler;
  repeat (match goal with
          | |- context [match ?x with _ => _ end] =>
              lazymatch x with
              | context [match _ with _ => _ end] => fail
              | _ => destruct x eqn:?
              end
          end; run_handler).

(** The state after a run, read off the emitted setter calls. *)
Ltac run_replay :=
  cbn [after replay fold_left apply applyUpdate trainingStatus isTraining
       metricsJson app appended network omap List.filter isNetwork isReset].

Lemma suffix_by_skipn {A} (n : nat) (s l : list A) :
  skipn n l = s -> s `suffix_of` l.
Proof. intros <-. exists (firstn n l). symmetry. apply firstn_skipn. Qed.

(** Settle [s `suffix_of` l] for a list [l] whose spine is known. *)
Ltac ends :=
  match goal with
  | |- ?s `suffix_of` ?l =>
      let n := eval cbv beta iota delta [length Nat.sub] in
                 (length l - length s)%nat in
      apply (suffix_by_skipn n); cbn [skipn]; reflexivity
  end.

Lemma replay_app st (a b : list effect) :
  replay st (a ++ b) = replay (replay st a) b.
Proof. apply fold_left_app. Qed.

(** A run without reset only extends the log. *)
Lemma replay_appends st (es : list effect) :
  Forall (fun e => isReset e = false) es ->
  trainingStatus (replay st es) = trainingStatus st ++ appended es.
Proof.
  revert st. induction es as [|e es IH]; intros st H.
  - cbn. rewrite app_nil_r. reflexivity.
  - apply Forall_cons in H as [He Hes]. cbn [replay fold_left].
    change (fold_left apply es (apply st e)) with (replay (apply st e) es).
    rewrite (IH _ Hes).
    destruct e as [| | [|] | | | |]; try discriminate He; cbn; try reflexivity.
    rewrite <- app_assoc. reflexivity.
Qed.

Lemma preflightPasses_spec env content :
  preflightPasses env content = true <->
  Exists (fun header =>
            NORMALIZED_COLUMN_MAP !! normalizeKey header = Some equilibrium_temp_K)
         (default [] (fields (parse env content))).
Proof. apply preflight_has_equilibrium. Qed.

(** C1.  When a file is selected, is read and parsed without error, and
    none of its headers normalises to an alias of [equilibrium_temp_K],
    the handler returns early; the log ends with the two entries of the
    critical error, [isTraining] is false afterwards, and the run holds
    no network operation: neither the bulk insert nor the POST. *)
Theorem C1_missing_critical_column_stops_before_network
    (env : environment) (f : file) (content : list N) (st : state) :
  selectedFile env = Some f ->
  text f = Resolves content ->
  errors (parse env content) = [] ->
  Forall (fun header =>
            NORMALIZED_COLUMN_MAP !! normalizeKey header <> Some equilibrium_temp_K)
         (default [] (fields (parse env content))) ->
  fst (submit env) = Return /\
  network (trace env) = [] /\
  (exists t1 t2,
     [stamp t1 msg_critical; stamp t2 msg_advice]
       `suffix_of` trainingStatus (after env st)) /\
  [SetIsTraining false] `suffix_of` trace env /\
  isTraining (after env st) = false.
Proof.
  intros Hfile Htext Herrors Hcols.
  assert (P : preflightPasses env content = false).
  { destruct (preflightPasses env content) eqn:P; [|reflexivity].
    apply preflightPasses_spec in P. apply List.Exists_exists in P as (h & Hin & Hh).
    rewrite List.Forall_forall in Hcols. destruct (Hcols h Hin Hh). }
  unfold preflightPasses in P.
  unfold after, trace, submit, handleStartTraining.
  run_handler. rewrite Hfile. run_handler. rewrite Htext. run_handler.
  rewrite Herrors. cbn [length Nat.eqb]. run_handler. rewrite P.
  walk; run_replay.
  all: (split; [reflexivity|]; split; [reflexivity|]; split; [do 2 eexists; ends|];
        split; [ends|reflexivity]).
Qed.

Lemma C1_witness :
  fst (submit missingColumn) = Return /\
  network (trace missingColumn) = [] /\
  isTraining (after missingColumn (idle [])) = false.
Proof.
  destruct (C1_missing_critical_column_stops_before_network
              missingColumn
              (csv ("kepid,koi_period" ++ newline ++ "1,12"))
              (u16 ("kepid,koi_period" ++ newline ++ "1,12"))
              (idle []))
    as (A & B & _ & _ & C).
  - reflexivity.
  - reflexivity.
  - reflexivity.
  - change (Forall (fun header =>
              NORMALIZED_COLUMN_MAP !! normalizeKey header
              <> Some equilibrium_temp_K)
              [u16 "kepid"; u16 "koi_period"]).
    repeat constructor; vm_compute; discriminate.
  - exact (conj A (conj B C)).
Defined.

(** Enter the handler along the path of a file that is selected, read
    and parsed without error. *)
Ltac enter Hfile Htext Herrors :=
  unfold after, trace, submit, handleStartTraining;
  run_handler; rewrite Hfile; run_handler; rewrite Htext; run_handler;
  rewrite Herrors; cbn [length Nat.eqb]; run_handler.

(** C5 (amended).  A bulk insert that answers with an error ends the
    run: its message is logged, [isTraining] is reset, the handler
    returns, and the insert is the run's only network operation.  When
    the insert succeeded and the training call fails, the failure is
    caught, each stage has been attempted once, and the failure is
    logged unless its message is exactly "Failed to fetch". *)
Theorem C5_failed_insert_stops_and_failed_training_is_not_retried
    (env : environment) (f : file) (content : list N) (st : state) :
  selectedFile env = Some f ->
  text f = Resolves content ->
  errors (parse env content) = [] ->
  preflightPasses env content = true ->
  (forall message,
     insert env (rowsOf env content) = Resolves (Some message) ->
     fst (submit env) = Return /\
     network (trace env)
       = [SupabaseInsert exoplanet_datasets (rowsOf env content)] /\
     (exists t, [stamp t (msg_insert_error message)]
                  `suffix_of` trainingStatus (after env st)) /\
     [SetIsTraining false] `suffix_of` trace env /\
     isTraining (after env st) = false) /\
  (forall e,
     insert env (rowsOf env content) = Resolves None ->
     fst (trainStage env (buildFormData env f) start) = Throw e ->
     fst (submit env) = Normal tt /\
     network (trace env)
       = [SupabaseInsert exoplanet_datasets (rowsOf env content);
          Post train_url (buildFormData env f)] /\
     (trainErrorMessage e <> failed_to_fetch ->
      exists t, [stamp t (msg_error (trainErrorMessage e))]
                  `suffix_of` trainingStatus (after env st)) /\
     (trainErrorMessage e = failed_to_fetch ->
      exists t, [stamp t msg_training]
                  `suffix_of` trainingStatus (after env st))).
Proof.
  intros Hfile Htext Herrors Hpass. unfold preflightPasses in Hpass.
  unfold rowsOf. split.
  - intros message Hinsert. enter Hfile Htext Herrors.
    rewrite Hpass, Hinsert. walk; run_replay.
    all: (split; [reflexivity|]; split; [reflexivity|];
          split; [eexists; ends|]; split; [ends|reflexivity]).
  - intros e Hinsert. enter Hfile Htext Herrors.
    rewrite Hpass, Hinsert. walk; run_replay.
    all: intros Hthrow; try discriminate Hthrow; injection Hthrow as <-.
    all: cbn [trainErrorMessage] in *.
    all: repeat match goal with
                | H : bool_decide _ = true |- _ => apply bool_decide_eq_true in H
                | H : bool_decide _ = false |- _ => apply bool_decide_eq_false in H
                | H : negb _ = true |- _ => apply negb_true_iff in H
                | H : negb _ = false |- _ => apply negb_false_iff in H
                end.
    all: (split; [reflexivity|]; split; [reflexivity|];
          split; intros Hmessage;
          first [contradiction | eexists; ends
                | vm_compute in Hmessage; discriminate Hmessage]).
Qed.

Lemma C5_witness :
  fst (submit insertRefused) = Return /\
  network (trace insertRefused)
    = [SupabaseInsert exoplanet_datasets (rowsOf insertRefused (text_of kepler))].
Proof.
  destruct (C5_failed_insert_stops_and_failed_training_is_not_retried
              insertRefused kepler (text_of kepler) (idle []))
    as [H _].
  - reflexivity.
  - reflexivity.
  - reflexivity.
  - vm_compute. reflexivity.
  - destruct (H (u16 "permission denied")) as (A & B & _).
    + reflexivity.
    + exact (conj A B).
Defined.

(** C5, as stated, fails: with the training server out of reach the
    call rejects with "Failed to fetch"; the failure is caught, yet the
    log gets no entry about it and ends with the entry announcing the
    call. *)
Lemma C5_unreachable_server_is_not_reported :
  insert offline (rowsOf offline (text_of kepler)) = Resolves None /\
  fst (trainStage offline (buildFormData offline kepler) start)
    = Throw (ErrorObject failed_to_fetch) /\
  fst (submit offline) = Normal tt /\
  trainingStatus (after offline (idle []))
    = [ stamp (clock 0) msg_starting;
        stamp (clock 1) msg_parsing;
        stamp (clock 2) msg_preflight;
        stamp (clock 3) (msg_found (u16 "2") (u16 "2"));
        stamp (clock 4) msg_passed;
        stamp (clock 5) (msg_mapped (u16 "1"));
        stamp (clock 6) msg_uploaded;
        stamp (clock 7) msg_training ].
Proof.
  split; [reflexivity|]. split; [reflexivity|].
  split; vm_compute; reflexivity.
Qed.

(** Turn the boolean tests met along a path into propositions. *)
Ltac reflect_tests :=
  repeat match goal with
         | H : bool_decide _ = true |- _ => apply bool_decide_eq_true in H
         | H : bool_decide _ = false |- _ => apply bool_decide_eq_false in H
         | H : negb _ = true |- _ => apply negb_true_iff in H
         | H : negb _ = false |- _ => apply negb_false_iff in H
         end.

(** C6 (amended).  After a successful bulk insert, a response that is
    not ok makes the second [try] throw: the error built from the
    body's [error] field (or "Unknown error occurred" when that is
    falsy) if the body is a JSON value other than [null], the
    [TypeError] of reading [null.error] if it is [null], and the
    rejection of [response.json()] if the body is no JSON.  The log
    then ends with the insert-success entry, the entry announcing the
    training call and, unless the message of the error is exactly
    "Failed to fetch", one entry with that message; [isTraining] is
    false afterwards. *)
Theorem C6_insert_success_then_error_response
    (env : environment) (f : file) (content : list N) (st : state)
    (response : response) :
  selectedFile env = Some f ->
  text f = Resolves content ->
  errors (parse env content) = [] ->
  preflightPasses env content = true ->
  insert env (rowsOf env content) = Resolves None ->
  fetch env (buildFormData env f) = Resolves response ->
  ok response = false ->
  exists e,
    fst (trainStage env (buildFormData env f) start) = Throw e /\
    (forall error metrics_json,
       json response = Resolves (JsonData error metrics_json) ->
       e = ErrorObject (toString (orElse error unknown_error_occurred))) /\
    (json response = Resolves JsonNull -> e = nullTypeError "error") /\
    (forall rejection, json response = Rejects rejection -> e = rejection) /\
    (trainErrorMessage e <> failed_to_fetch ->
     exists t1 t2 t3,
       [stamp t1 msg_uploaded; stamp t2 msg_training;
        stamp t3 (msg_error (trainErrorMessage e))]
         `suffix_of` trainingStatus (after env st)) /\
    (trainErrorMessage e = failed_to_fetch ->
     exists t1 t2,
       [stamp t1 msg_uploaded; stamp t2 msg_training]
         `suffix_of` trainingStatus (after env st)) /\
    isTraining (after env st) = false.
Proof.
  intros Hfile Htext Herrors Hpass Hinsert Hfetch Hok.
  unfold preflightPasses in Hpass. unfold rowsOf in Hinsert.
  enter Hfile Htext Herrors.
  rewrite Hpass, Hinsert, Hfetch, Hok. walk; run_replay.
  all: reflect_tests.
  all: eexists; split; [reflexivity|].
  all: (split; [intros ? ? E; first [discriminate E
                                    | injection E as <- <-; reflexivity]|]).
  all: (split; [intros E; first [discriminate E | reflexivity]|]).
  all: (split; [intros ? E; first [discriminate E
                                  | injection E as <-; reflexivity]|]).
  all: (split; [intros Hmessage; first [contradiction | do 3 eexists; ends]|]).
  all: (split; [intros Hmessage; first [contradiction | do 2 eexists; ends]|]).
  all: reflexivity.
Qed.

Lemma C6_witness :
  [ stamp (clock 6) msg_uploaded; stamp (clock 7) msg_training;
    stamp (clock 8) (msg_error (u16 "model crashed")) ]
    `suffix_of`
    trainingStatus (after (serverError (VString (u16 "model crashed"))) (idle [])) /\
  isTraining (after (serverError (VString (u16 "model crashed"))) (idle [])) = false.
Proof.
  destruct (C6_insert_success_then_error_response
              (serverError (VString (u16 "model crashed"))) kepler
              (text_of kepler) (idle [])
              {| ok := false;
                 json := Resolves (JsonData (VString (u16 "model crashed"))
                                            VUndefined) |})
    as (e & _ & _ & _ & _ & _ & _ & H).
  - reflexivity.
  - reflexivity.
  - reflexivity.
  - vm_compute. reflexivity.
  - reflexivity.
  - reflexivity.
  - reflexivity.
  - split; [|exact H]. exists (firstn 6 (trainingStatus
        (after (serverError (VString (u16 "model crashed"))) (idle [])))).
    vm_compute. reflexivity.
Defined.

(** C6, as stated, fails in two ways.  A 502 whose body is a page and
    no JSON: the entry carries the message of the rejected
    [response.json()], taken neither from an [error] field nor
    "Unknown error occurred".  A 500 whose [error] field reads "Failed
    to fetch": no error entry follows the insert-success entry. *)
Lemma C6_error_entry_from_json_rejection_or_missing :
  ok {| ok := false; json := Rejects (ErrorObject unexpected_token) |} = false /\
  trainingStatus (after badGateway (idle []))
    = [ stamp (clock 0) msg_starting;
        stamp (clock 1) msg_parsing;
        stamp (clock 2) msg_preflight;
        stamp (clock 3) (msg_found (u16 "2") (u16 "2"));
        stamp (clock 4) msg_passed;
        stamp (clock 5) (msg_mapped (u16 "1"));
        stamp (clock 6) msg_uploaded;
        stamp (clock 7) msg_training;
        stamp (clock 8) (msg_error unexpected_token) ] /\
  trainingStatus (after (serverError (VString failed_to_fetch)) (idle []))
    = [ stamp (clock 0) msg_starting;
        stamp (clock 1) msg_parsing;
        stamp (clock 2) msg_preflight;
        stamp (clock 3) (msg_found (u16 "2") (u16 "2"));
        stamp (clock 4) msg_passed;
        stamp (clock 5) (msg_mapped (u16 "1"));
        stamp (clock 6) msg_uploaded;
        stamp (clock 7) msg_training ].
Proof.
  split; [reflexivity|]. split; vm_compute; reflexivity.
Qed.

(** C7.  Whatever the body of the second [try] did before it threw:
    the [catch] and [finally] blocks complete normally, so nothing is
    thrown to the caller.  An [Error] whose message is exactly "Failed
    to fetch" appends no entry.  An [Error] with any other message [m]
    appends exactly one entry, the text "❌ Error: " followed by [m],
    behind a reading of the clock; so does a thrown value that is no
    [Error], with "Unknown error" for [m].  In every case the last
    effect resets [isTraining], and no submission as a whole ever
    throws. *)
Theorem C7_catch_filters_failed_to_fetch_and_finally_resets
    (env : environment) (body : M unit) (r r' : run) (e : exn) (st : state) :
  body r = (Throw e, r') ->
  let result := tryFinally (tryCatch body (trainCatch env)) trainFinally r in
  fst result = Normal tt /\
  (e = ErrorObject (u16 "Failed to fetch") ->
   emitted (snd result) = emitted r' ++ [SetIsTraining false]) /\
  (forall m,
     e = ErrorObject m -> m <> u16 "Failed to fetch" ->
     emitted (snd result)
       = emitted r' ++
         [SetTrainingStatus
            (Append (u16 "[" ++ toLocaleTimeString env (ticks r') ++ u16 "] "
                     ++ [0x274C] ++ u16 " Error: " ++ m));
          SetIsTraining false]) /\
  (forall v,
     e = ThrownValue v ->
     emitted (snd result)
       = emitted r' ++
         [SetTrainingStatus
            (Append (u16 "[" ++ toLocaleTimeString env (ticks r') ++ u16 "] "
                     ++ [0x274C] ++ u16 " Error: " ++ u16 "Unknown error"));
          SetIsTraining false]) /\
  isTraining (replay st (emitted (snd result))) = false /\
  (forall thrown, fst (submit env) <> Throw thrown).
Proof.
  intros Hbody result. subst result.
  assert (Hescape : forall thrown, fst (submit env) <> Throw thrown).
  { intros thrown. unfold submit, handleStartTraining. walk.
    all: discriminate. }
  unfold tryFinally, tryCatch. rewrite Hbody.
  unfold trainCatch, when, trainFinally.
  destruct (bool_decide (trainErrorMessage e = failed_to_fetch)) eqn:D;
    reflect_tests; run_handler.
  - split; [reflexivity|]. split; [intros _; reflexivity|].
    split; [intros m -> Hm; contradiction|].
    split; [intros v ->; vm_compute in D; discriminate D|].
    split; [|exact Hescape].
    rewrite replay_app. reflexivity.
  - split; [reflexivity|].
    split; [intros ->; contradiction D; reflexivity|].
    split; [intros m -> _; rewrite <- app_assoc; reflexivity|].
    split; [intros v ->; rewrite <- app_assoc; reflexivity|].
    split; [|exact Hescape].
    rewrite replay_app. reflexivity.
Qed.

Lemma C7_witness :
  emitted (snd (tryFinally
                  (tryCatch (throw (ErrorObject (u16 "Failed to fetch")))
                            (trainCatch offline))
                  trainFinally start))
    = [SetIsTraining false] /\
  emitted (snd (tryFinally
                  (tryCatch (throw (ErrorObject (u16 "Internal Server Error")))
                            (trainCatch offline))
                  trainFinally start))
    = [SetTrainingStatus
         (Append (u16 "[" ++ clock 0 ++ u16 "] " ++ [0x274C]
                  ++ u16 " Error: " ++ u16 "Internal Server Error"));
       SetIsTraining false].
Proof.
  split.
  - destruct (C7_catch_filters_failed_to_fetch_and_finally_resets
                offline (throw (ErrorObject (u16 "Failed to fetch"))) start start
                (ErrorObject (u16 "Failed to fetch")) (idle []) eq_refl)
      as (_ & H & _).
    exact (H eq_refl).
  - destruct (C7_catch_filters_failed_to_fetch_and_finally_resets
                offline (throw (ErrorObject (u16 "Internal Server Error")))
                start start
                (ErrorObject (u16 "Internal Server Error")) (idle []) eq_refl)
      as (_ & _ & H & _).
    apply (H (u16 "Internal Server Error") eq_refl).
    vm_compute. discriminate.
Defined.

(** Take a membership in a list with a known spine apart. *)
Ltac members :=
  repeat match goal with
         | H : _ ∈ [] |- _ => apply elem_of_nil in H; destruct H
         | H : _ ∈ _ :: _ |- _ =>
             apply elem_of_cons in H as [H|H]; [try discriminate H|]
         end.

Lemma slider_values (n : Z) :
  (50 <= n <= 90)%Z ->
  exists q, decimalValue (hundredthsToString n) = Some q /\
            (q == n # 100)%Q /\ (1 # 2 <= q)%Q /\ (q <= 9 # 10)%Q.
Proof.
  intros Hn.
  assert (A : forallb
                (fun k => match decimalValue (hundredthsToString (Z.of_nat k)) with
                          | Some q => Qeq_bool q (Z.of_nat k # 100) &&
                                      Qle_bool (1 # 2) q && Qle_bool q (9 # 10)
                          | None => false
                          end)
                (seq 50 41) = true).
  { vm_compute. reflexivity. }
  rewrite forallb_forall in A. specialize (A (Z.to_nat n)).
  rewrite Z2Nat.id in A by lia.
  assert (Hin : In (Z.to_nat n) (seq 50 41)) by (apply in_seq; lia).
  apply A in Hin.
  destruct (decimalValue (hundredthsToString n)) as [q|]; [|discriminate Hin].
  apply andb_true_iff in Hin as [Hin H3]. apply andb_true_iff in Hin as [H1 H2].
  exists q. split; [reflexivity|].
  split; [apply Qeq_bool_iff; exact H1|].
  split; apply Qle_bool_iff; assumption.
Qed.

(** C8.  With the slider within its bounds, the form sent to the
    training endpoint has nine parts in this order: the selected file
    under [file], then eight texts under [train_test_split],
    [cv_folds], [rf_estimators], [xgb_estimators], [lgbm_estimators],
    [xgb_max_depth], [lgbm_max_depth] and [learning_rate]; the text of
    [train_test_split] is the numeral of [trainTestSplit / 100], a
    number from 0.5 to 0.9, so strictly between 0 and 1.  Any POST of a
    submission goes to the training endpoint with this form. *)
Theorem C8_form_parts_and_split_fraction
    (env : environment) (f : file) :
  selectedFile env = Some f ->
  (50 <= trainTestSplit env <= 90)%Z ->
  List.map fst (buildFormData env f)
    = List.map u16 ["file"; "train_test_split"; "cv_folds"; "rf_estimators";
                    "xgb_estimators"; "lgbm_estimators"; "xgb_max_depth";
                    "lgbm_max_depth"; "learning_rate"]%string /\
  List.hd_error (buildFormData env f) = Some (u16 "file", FormFile f) /\
  Forall (fun part => exists s, snd part = FormText s)
         (List.tl (buildFormData env f)) /\
  (exists s q,
     (u16 "train_test_split", FormText s) ∈ buildFormData env f /\
     decimalValue s = Some q /\
     (q == trainTestSplit env # 100)%Q /\
     (1 # 2 <= q)%Q /\ (q <= 9 # 10)%Q /\ (0 < q)%Q /\ (q < 1)%Q) /\
  (forall url body,
     Post url body ∈ trace env ->
     url = train_url /\ body = buildFormData env f).
Proof.
  intros Hfile Hslider.
  split; [reflexivity|]. split; [reflexivity|].
  split; [unfold buildFormData; cbn [List.tl]; repeat constructor; eexists; reflexivity|].
  split.
  - destruct (slider_values _ Hslider) as (q & Hq & Heq & Hlo & Hhi).
    exists (hundredthsToString (trainTestSplit env)), q.
    split; [unfold buildFormData; apply list_elem_of_further, list_elem_of_here|].
    split; [exact Hq|]. split; [exact Heq|]. split; [exact Hlo|].
    split; [exact Hhi|]. split.
    + apply Qlt_le_trans with (1 # 2)%Q; [reflexivity | exact Hlo].
    + apply Qle_lt_trans with (9 # 10)%Q; [exact Hhi | reflexivity].
  - intros url body. unfold trace, submit, handleStartTraining.
    run_handler. rewrite Hfile. walk.
    all: intros Hin; members.
    all: injection Hin as <- <-; split; reflexivity.
Qed.

Lemma C8_witness :
  exists s q,
    (u16 "train_test_split", FormText s) ∈ buildFormData offline kepler /\
    decimalValue s = Some q /\ (q == 80 # 100)%Q.
Proof.
  destruct (C8_form_parts_and_split_fraction offline kepler)
    as (_ & _ & _ & (s & q & A & B & C & _) & _).
  - reflexivity.
  - cbn. lia.
  - exists s, q. exact (conj A (conj B C)).
Defined.

Lemma appended_app (a b : list effect) :
  appended (a ++ b) = appended a ++ appended b.
Proof. apply omap_app. Qed.

(** C9 (amended).  A submission with a selected file sets the log to
    the empty list once, as its third effect, and never again: from
    then on the log at any moment is the list of the entries appended
    so far, each one a message behind a reading of the clock, and the
    final log extends it.  A submission without a selected file does
    not reset the log at all: it appends one entry to the log it
    found. *)
Theorem C9_log_reset_once_with_file_and_append_only
    (env : environment) (st : state) :
  match selectedFile env with
  | Some _ =>
      exists rest,
        trace env = [PreventDefault; SetIsTraining true;
                     SetTrainingStatus (Replace []); SetMetricsJson VNull]
                    ++ rest /\
        Forall (fun e => isReset e = false) rest /\
        Forall (fun entry => exists n message,
                  entry = stamp (toLocaleTimeString env n) message)
               (appended rest) /\
        (forall done todo,
           rest = done ++ todo ->
           trainingStatus
             (replay st ([PreventDefault; SetIsTraining true;
                          SetTrainingStatus (Replace []); SetMetricsJson VNull]
                         ++ done))
             = appended done /\
           trainingStatus (after env st) = appended done ++ appended todo)
  | None =>
      Forall (fun e => isReset e = false) (trace env) /\
      exists t, trainingStatus (after env st)
                = trainingStatus st ++ [stamp t msg_no_file]
  end.
Proof.
  assert (G : forall rest,
             trace env = [PreventDefault; SetIsTraining true;
                          SetTrainingStatus (Replace []); SetMetricsJson VNull]
                         ++ rest ->
             Forall (fun e => isReset e = false) rest ->
             forall done todo,
               rest = done ++ todo ->
               trainingStatus
                 (replay st ([PreventDefault; SetIsTraining true;
                              SetTrainingStatus (Replace []); SetMetricsJson VNull]
                             ++ done))
                 = appended done /\
               trainingStatus (after env st) = appended done ++ appended todo).
  { intros rest Htrace Hrest done todo ->.
    apply Forall_app in Hrest as [Hdone Htodo].
    assert (D : trainingStatus
                  (replay st ([PreventDefault; SetIsTraining true;
                               SetTrainingStatus (Replace []); SetMetricsJson VNull]
                              ++ done)) = appended done).
    { rewrite replay_app, (replay_appends _ _ Hdone). reflexivity. }
    split; [exact D|].
    unfold after. rewrite Htrace, app_assoc, replay_app.
    rewrite (replay_appends _ _ Htodo), D. reflexivity. }
  revert G. unfold after, trace, submit, handleStartTraining.
  run_handler. destruct (selectedFile env) as [f|] eqn:Hfile.
  - walk.
    all: intros G; eexists; split; [cbn [app]; reflexivity|].
    all: (split; [repeat constructor|]).
    all: (split; [run_replay; repeat constructor; eexists _, _; reflexivity|]).
    all: apply G; [reflexivity | repeat constructor].
  - intros _. run_handler. split; [repeat constructor|].
    eexists. run_replay. reflexivity.
Qed.

(** C9, as stated, fails: a submission with no file selected does not
    clear the log; the entries of earlier submissions stay, and one
    more is appended. *)
Lemma C9_submission_without_file_keeps_old_entries :
  selectedFile nothingSelected = None /\
  Forall (fun e => isReset e = false) (trace nothingSelected) /\
  trainingStatus
    (after nothingSelected (idle [stamp (u16 "9:00:00 AM") msg_complete]))
    = [ stamp (u16 "9:00:00 AM") msg_complete; stamp (clock 0) msg_no_file ].
Proof.
  split; [reflexivity|]. split; [repeat constructor|].
  vm_compute. reflexivity.
Qed.

End HandlerFacts.

(* ===================================================================== *)
(** * Further properties of the column mapper and the row transformer     *)
(* ===================================================================== *)

Module ColumnFacts.
Import JS ColumnMapper RowTransformer MapperFacts TransformerFacts.

(** A string of [a-z0-9] is its own normal form. *)
Lemma foldedAlnum_fixed s :
  forallb isLowerAlnum s = true -> foldedAlnum s = s.
Proof.
  unfold foldedAlnum. induction s as [|c s IH]; [reflexivity|].
  cbn [forallb]. intros H. apply andb_true_iff in H as [Hc Hs].
  change (omap letterOrDigit (c :: s))
    with (match letterOrDigit c with
          | Some d => d :: omap letterOrDigit s
          | None => omap letterOrDigit s
          end).
  rewrite (IH Hs).
  replace (letterOrDigit c) with (Some c); [reflexivity|].
  revert Hc. unfold isLowerAlnum, letterOrDigit. units; discriminate.
Qed.

(** The normal form of a header is made of [a-z0-9] only, and
    normalising twice is normalising once. *)
Theorem normalizeKey_idempotent (header : list N) :
  forallb isLowerAlnum (normalizeKey header) = true /\
  normalizeKey (normalizeKey header) = normalizeKey header.
Proof.
  split; [apply normalizeKey_alnum|].
  rewrite (normalizeKey_foldedAlnum (normalizeKey header)).
  apply foldedAlnum_fixed, normalizeKey_alnum.
Qed.

(** The call of [trim] changes nothing: the removal of everything
    outside [a-z0-9] takes the surrounding white space with it. *)
Theorem normalizeKey_without_trim (header : list N) :
  normalizeKey header = stripNonAlnum (toLowerCase header).
Proof. rewrite normalizeKey_foldedAlnum, strip_toLowerCase. reflexivity. Qed.

Lemma own_entry_maps (k f : list N) :
  NORMALIZED_COLUMN_MAP !! k = Some (VString f) ->
  mapHeader k = Canonical f /\ mapHeader f = Canonical f.
Proof.
  intros H. apply elem_of_list_to_map_2 in H. apply list_elem_of_In in H.
  assert (A : forallb
                (fun kv =>
                   match snd kv with
                   | VString g =>
                       bool_decide (mapHeader (fst kv) = Canonical g) &&
                       bool_decide (mapHeader g = Canonical g)
                   | _ => false
                   end)
                aliasEntries = true).
  { vm_compute. reflexivity. }
  rewrite forallb_forall in A. apply A in H. cbn [fst snd] in H.
  apply andb_true_iff in H as [H1 H2].
  apply bool_decide_eq_true in H1, H2. split; assumption.
Qed.

(** Every entry of the table can be reached: a header spelled as a key
    of the table is mapped to the field of that key. *)
Theorem table_entries_reachable (k f : list N) :
  NORMALIZED_COLUMN_MAP !! k = Some (VString f) ->
  normalizeKey k = k /\ mapHeader k = Canonical f.
Proof.
  intros H. split; [|exact (proj1 (own_entry_maps k f H))].
  apply elem_of_list_to_map_2 in H. apply list_elem_of_In in H.
  assert (A : forallb (fun kv => bool_decide (normalizeKey (fst kv) = fst kv))
                      aliasEntries = true).
  { vm_compute. reflexivity. }
  rewrite forallb_forall in A. apply A in H.
  apply bool_decide_eq_true in H. exact H.
Qed.

Lemma table_entries_reachable_witness :
  normalizeKey (u16 "koiteq") = u16 "koiteq" /\
  mapHeader (u16 "koiteq") = Canonical (u16 "equilibrium_temp_K").
Proof.
  apply (table_entries_reachable (u16 "koiteq") (u16 "equilibrium_temp_K")).
  vm_compute. reflexivity.
Defined.

(** The mapping is idempotent: the field a header is mapped to is, used
    as a header, mapped to itself; a table exported under the canonical
    names is accepted as it is. *)
Theorem mapHeader_idempotent (header f : list N) :
  mapHeader header = Canonical f -> mapHeader f = Canonical f.
Proof.
  unfold mapHeader at 1.
  destruct (truthy (dbKeyOf header)); [|discriminate].
  destruct (NORMALIZED_COLUMN_MAP !! normalizeKey header)
    as [[| | | | |g|]|] eqn:Own; try discriminate.
  intros [= ->].
  exact (proj2 (own_entry_maps _ _ Own)).
Qed.

Lemma mapHeader_idempotent_witness :
  mapHeader (u16 "equilibrium_temp_K") = Canonical (u16 "equilibrium_temp_K").
Proof.
  apply (mapHeader_idempotent (u16 " Koi-Teq ") (u16 "equilibrium_temp_K")).
  vm_compute. reflexivity.
Defined.

End ColumnFacts.

Module RecordFacts.
Import JS ColumnMapper RowTransformer MapperFacts TransformerFacts.

(** What the loop over the columns leaves under a key: what was there
    before, or the value of one of the columns written under it. *)
Lemma fold_mapCell_origin (row : rawRow) mappedRow key v :
  fold_left mapCell row mappedRow !! key = Some v ->
  mappedRow !! key = Some v \/
  exists rawKey raw, (rawKey, raw) ∈ row /\ target rawKey = Some key /\
                     v = nullIfBlank raw.
Proof.
  revert mappedRow. induction row as [|[rawKey raw] row IH]; intros m H.
  - left. exact H.
  - cbn [fold_left] in H. apply IH in H as [H|(k' & r' & Hin & T & E)].
    + rewrite mapCell_target in H.
      destruct (target rawKey) as [key'|] eqn:T; [|left; exact H].
      destruct (decide (key' = key)) as [->|Hne].
      * rewrite lookup_insert_eq in H. injection H as <-.
        right. exists rawKey, raw.
        split; [apply list_elem_of_here|]. split; [exact T|reflexivity].
      * rewrite lookup_insert_ne in H by exact Hne. left. exact H.
    + right. exists k', r'.
      split; [apply list_elem_of_further; exact Hin|]. split; assumption.
Qed.

Lemma nullIfBlank_not_blank v : isBlankString (nullIfBlank v) = false.
Proof.
  unfold nullIfBlank. destruct (isBlankString v) eqn:B; [reflexivity|exact B].
Qed.

(** No value of an output record is invented and none is a blank
    string: each is the default source, or the cell of a column written
    under that key, with [null] in place of a blank string. *)
Theorem transformRow_values_come_from_cells (row : rawRow) (key : list N) (v : value) :
  transformRow row !! key = Some v ->
  isBlankString v = false /\
  ((key = k_source /\ v = uploaded_csv) \/
   exists rawKey raw, (rawKey, raw) ∈ row /\ target rawKey = Some key /\
                      v = nullIfBlank raw).
Proof.
  unfold transformRow, addSource.
  assert (O : forall w, mapCells row !! key = Some w ->
              isBlankString w = false /\
              exists rawKey raw, (rawKey, raw) ∈ row /\ target rawKey = Some key /\
                                 w = nullIfBlank raw).
  { intros w H. unfold mapCells in H.
    apply fold_mapCell_origin in H as [H|(rawKey & raw & Hin & T & ->)].
    - rewrite lookup_empty in H. discriminate H.
    - split; [apply nullIfBlank_not_blank|].
      exists rawKey, raw. split; [exact Hin|]. split; [exact T|reflexivity]. }
  destruct (truthy (get (mapCells row) k_source)).
  - intros H. destruct (O _ H) as [B E]. split; [exact B|]. right. exact E.
  - destruct (decide (key = k_source)) as [->|Hne].
    + rewrite lookup_insert_eq. intros [= <-].
      split; [reflexivity|]. left. split; reflexivity.
    + rewrite lookup_insert_ne by (intros E; apply Hne; symmetry; exact E).
      intros H. destruct (O _ H) as [B E]. split; [exact B|]. right. exact E.
Qed.

Lemma transformRow_values_witness :
  isBlankString VNull = false /\
  ((u16 "equilibrium_temp_K" = k_source /\ VNull = uploaded_csv) \/
   exists rawKey raw,
     (rawKey, raw) ∈ [(u16 "koi_teq", VString (u16 " "))] /\
     target rawKey = Some (u16 "equilibrium_temp_K") /\
     VNull = nullIfBlank raw).
Proof.
  apply (transformRow_values_come_from_cells
           [(u16 "koi_teq", VString (u16 " "))] (u16 "equilibrium_temp_K") VNull).
  vm_compute. reflexivity.
Defined.

(** A row none of whose columns is mapped (an empty row among them) is
    not dropped: it becomes the record that holds the default source
    only.  The records sent are as many as the rows parsed. *)
Theorem unmapped_row_becomes_source_only (row : rawRow) (rawRows : list rawRow) :
  Forall (fun cell => target (fst cell) = None) row ->
  transformRow row = {[ k_source := uploaded_csv ]} /\
  length (rowsToInsert (row :: rawRows)) = S (length rawRows).
Proof.
  intros H. split.
  - assert (E : mapCells row = ∅).
    { unfold mapCells. generalize (∅ : gmap (list N) value).
      induction H as [|[k v] row Hk _ IH]; intros m; [reflexivity|].
      cbn [fold_left]. rewrite mapCell_target. cbn [fst] in Hk. rewrite Hk.
      apply IH. }
    unfold transformRow, addSource. rewrite E, get_source, lookup_empty.
    reflexivity.
  - unfold rowsToInsert. cbn [List.map length]. rewrite length_map. reflexivity.
Qed.

Lemma unmapped_row_witness :
  transformRow [(u16 "kepid", VString (u16 "10797460"))]
    = {[ k_source := uploaded_csv ]} /\
  length (rowsToInsert [[(u16 "kepid", VString (u16 "10797460"))]]) = 1%nat.
Proof.
  apply (unmapped_row_becomes_source_only
           [(u16 "kepid", VString (u16 "10797460"))] []).
  repeat constructor.
Defined.

(** A source given in the file is kept: when the last column standing
    for [source] holds a string that is not blank, that string is the
    record's source. *)
Theorem given_source_is_kept
    (pre post : rawRow) (rawKey s : list N) :
  normalizeKey rawKey = u16 "source" ->
  whitespaceOnly s = false ->
  Forall (fun cell => normalizeKey (fst cell) <> u16 "source") post ->
  transformRow (pre ++ (rawKey, VString s) :: post) !! k_source
    = Some (VString s).
Proof.
  intros K W Hpost.
  assert (T : target rawKey = Some k_source) by (apply target_source; exact K).
  assert (F : Forall (fun cell => target (fst cell) <> Some k_source) post).
  { eapply Forall_impl; [exact Hpost|].
    intros cell Hn Ht. apply target_source in Ht. exact (Hn Ht). }
  assert (L : mapCells (pre ++ (rawKey, VString s) :: post) !! k_source
              = Some (VString s)).
  { rewrite (mapCells_last_write _ _ _ _ _ T F).
    rewrite nullIfBlank_other; [reflexivity|].
    intros s' [= <-]. exact W. }
  unfold transformRow. rewrite addSource_source, get_source, L.
  cbn [from_option id].
  destruct s as [|c s]; [discriminate W|reflexivity].
Qed.

Lemma given_source_witness :
  transformRow ([(u16 "koi_teq", VString (u16 "300"))]
                ++ (u16 "Source", VString (u16 "KOI table")) :: [])
    !! k_source = Some (VString (u16 "KOI table")).
Proof.
  apply (given_source_is_kept
           [(u16 "koi_teq", VString (u16 "300"))] [] (u16 "Source") (u16 "KOI table")).
  - vm_compute. reflexivity.
  - vm_compute. reflexivity.
  - constructor.
Defined.

End RecordFacts.

(* ===================================================================== *)
(** * Further properties of the submission handler                        *)
(* ===================================================================== *)

Module SubmissionFacts.
Import JS ColumnMapper RowTransformer Handler MapperFacts HandlerFacts.
Local Open Scope handler_scope.

(** ** The pre-flight check *)

Lemma preflight_unmapped_fold (hs : list (list N)) acc :
  snd (fold_left preflightStep hs acc)
  = snd acc ++
    List.filter (fun h => negb (bool_decide (h = [])) &&
                          negb (truthy (dbKeyOf h))) hs.
Proof.
  revert acc. induction hs as [|h hs IH]; intros acc.
  - cbn. rewrite app_nil_r. reflexivity.
  - cbn [fold_left List.filter]. rewrite IH. unfold preflightStep.
    destruct h as [|c h]; [reflexivity|].
    rewrite bool_decide_false by discriminate. cbn [negb andb].
    destruct (truthy (dbKeyOf (c :: h))); cbn [negb fst snd]; [reflexivity|].
    rewrite <- app_assoc. reflexivity.
Qed.

Lemma setAdd_NoDup v s : NoDup s -> NoDup (setAdd v s).
Proof.
  intros H. unfold setAdd. destruct (decide (v ∈ s)) as [Hin|Hout]; [exact H|].
  apply NoDup_app. split; [exact H|]. split.
  - intros x Hx Hx'. apply list_elem_of_singleton in Hx'. subst x. exact (Hout Hx).
  - apply NoDup_singleton.
Qed.

Lemma setAdd_length v s : (length (setAdd v s) <= S (length s))%nat.
Proof.
  unfold setAdd. destruct (decide (v ∈ s)); [lia|].
  rewrite length_app. cbn. lia.
Qed.

Lemma preflight_fold_invariant (hs : list (list N)) acc :
  NoDup (fst acc) ->
  NoDup (fst (fold_left preflightStep hs acc)) /\
  (length (fst (fold_left preflightStep hs acc))
   + length (snd (fold_left preflightStep hs acc))
   <= length (fst acc) + length (snd acc) + length hs)%nat.
Proof.
  revert acc. induction hs as [|h hs IH]; intros acc Hacc.
  - cbn [fold_left length]. split; [exact Hacc|lia].
  - cbn [fold_left length].
    assert (S : NoDup (fst (preflightStep acc h)) /\
                (length (fst (preflightStep acc h))
                 + length (snd (preflightStep acc h))
                 <= S (length (fst acc) + length (snd acc)))%nat).
    { unfold preflightStep. destruct h as [|c h]; [split; [exact Hacc|lia]|].
      destruct (truthy (dbKeyOf (c :: h))); cbn [fst snd].
      - split; [apply setAdd_NoDup; exact Hacc|].
        pose proof (setAdd_length (dbKeyOf (c :: h)) (fst acc)). lia.
      - split; [exact Hacc|]. rewrite length_app. cbn [length]. lia. }
    destruct S as [S1 S2]. destruct (IH _ S1) as [I1 I2].
    split; [exact I1|lia].
Qed.

(** The pre-flight check sorts the headers: the unmapped list holds, in
    the order of the file, the non-empty headers whose look-up is falsy;
    the mapped set holds the look-ups of the others, each once; so the
    two counts of the log never add up to more than the number of
    columns. *)
Theorem preflight_sorts_the_headers (csvHeaders : list (list N)) :
  snd (preflight csvHeaders)
    = List.filter (fun h => negb (bool_decide (h = [])) &&
                            negb (truthy (dbKeyOf h))) csvHeaders /\
  NoDup (fst (preflight csvHeaders)) /\
  (forall v, v ∈ fst (preflight csvHeaders) <->
             exists h, h ∈ csvHeaders /\ h <> [] /\
                       truthy (dbKeyOf h) = true /\ dbKeyOf h = v) /\
  (length (fst (preflight csvHeaders)) + length (snd (preflight csvHeaders))
   <= length csvHeaders)%nat.
Proof.
  unfold preflight.
  split; [apply (preflight_unmapped_fold csvHeaders ([], []))|].
  destruct (preflight_fold_invariant csvHeaders ([], []) NoDup_nil_2)
    as [D L].
  split; [exact D|]. split; [|exact L].
  intros v. rewrite preflight_mapped. cbn [fst].
  rewrite List.Exists_exists. split.
  - intros [H|(h & Hin & Hh)]; [apply elem_of_nil in H; destruct H|].
    exists h. split; [apply list_elem_of_In; exact Hin|exact Hh].
  - intros (h & Hin & Hh). right. exists h.
    split; [apply list_elem_of_In; exact Hin|exact Hh].
Qed.

(** The check lets a file through exactly when one of its headers is an
    alias of [equilibrium_temp_K]; a column spelled [constructor], whose
    look-up is truthy too, does not count. *)
Theorem preflight_passes_iff_alias_present (env : environment) (content : list N) :
  preflightPasses env content = true <->
  exists header,
    header ∈ default [] (fields (parse env content)) /\
    NORMALIZED_COLUMN_MAP !! normalizeKey header = Some equilibrium_temp_K.
Proof.
  rewrite preflightPasses_spec, List.Exists_exists. split.
  - intros (h & Hin & H). exists h. split; [apply list_elem_of_In; exact Hin|exact H].
  - intros (h & Hin & H). exists h. split; [apply list_elem_of_In; exact Hin|exact H].
Qed.

(** ** The paths of a submission *)

(** Without a selected file the handler only prevents the default
    action of the form and appends one entry: nothing is reset, nothing
    is sent, and the flags keep their values. *)
Theorem submission_without_file (env : environment) (st : state) :
  selectedFile env = None ->
  fst (submit env) = Return /\
  trace env = [PreventDefault;
               SetTrainingStatus
                 (Append (stamp (toLocaleTimeString env 0) msg_no_file))] /\
  isTraining (after env st) = isTraining st /\
  metricsJson (after env st) = metricsJson st.
Proof.
  intros Hfile. unfold after, trace, submit, handleStartTraining.
  run_handler. rewrite Hfile. run_handler. run_replay.
  repeat split; reflexivity.
Qed.

Lemma submission_without_file_witness :
  fst (submit nothingSelected) = Return /\
  trace nothingSelected
    = [PreventDefault;
       SetTrainingStatus (Append (stamp (clock 0) msg_no_file))].
Proof.
  destruct (submission_without_file nothingSelected (idle []) eq_refl)
    as (A & B & _).
  exact (conj A B).
Defined.

(** When the parser reports errors, the message of the first one is
    logged and the handler returns: the rows are neither checked nor
    sent, and [isTraining] is false again. *)
Theorem parse_error_stops_the_submission
    (env : environment) (f : file) (content message : list N)
    (others : list (list N)) (st : state) :
  selectedFile env = Some f ->
  text f = Resolves content ->
  errors (parse env content) = message :: others ->
  fst (submit env) = Return /\
  trainingStatus (after env st)
    = [ stamp (toLocaleTimeString env 0) msg_starting;
        stamp (toLocaleTimeString env 1) msg_parsing;
        stamp (toLocaleTimeString env 2) (msg_parse_error message) ] /\
  network (trace env) = [] /\
  isTraining (after env st) = false /\
  metricsJson (after env st) = VNull.
Proof.
  intros Hfile Htext Herrors. enter Hfile Htext Herrors. run_replay.
  repeat split; reflexivity.
Qed.

Lemma parse_error_witness :
  fst (submit malformed) = Return /\
  trainingStatus (after malformed (idle []))
    = [ stamp (clock 0) msg_starting;
        stamp (clock 1) msg_parsing;
        stamp (clock 2) (msg_parse_error (u16 "Quoted field unterminated")) ].
Proof.
  destruct (parse_error_stops_the_submission
              malformed kepler (text_of kepler)
              (u16 "Quoted field unterminated") [u16 "Too few fields"]
              (idle []) eq_refl eq_refl eq_refl)
    as (A & B & _).
  exact (conj A B).
Defined.

(** Whatever is thrown in the first [try] is caught there and ends the
    submission: a file that cannot be read is reported before any
    network operation, a bulk insert that throws after its one attempt;
    the entry carries the message of an [Error], or the string form of
    any other thrown value; the POST is not attempted. *)
Theorem upload_failure_is_caught_and_stops
    (env : environment) (f : file) (st : state) :
  selectedFile env = Some f ->
  (forall thrown,
     text f = Rejects thrown ->
     fst (submit env) = Return /\
     trainingStatus (after env st)
       = [ stamp (toLocaleTimeString env 0) msg_starting;
           stamp (toLocaleTimeString env 1) msg_parsing;
           stamp (toLocaleTimeString env 2)
                 (msg_upload_error
                    match thrown with
                    | ErrorObject message => message
                    | ThrownValue v => toString v
                    end) ] /\
     network (trace env) = [] /\
     isTraining (after env st) = false) /\
  (forall content thrown,
     text f = Resolves content ->
     errors (parse env content) = [] ->
     preflightPasses env content = true ->
     insert env (rowsOf env content) = Rejects thrown ->
     fst (submit env) = Return /\
     (exists t, [stamp t (msg_upload_error
                    match thrown with
                    | ErrorObject message => message
                    | ThrownValue v => toString v
                    end)]
                  `suffix_of` trainingStatus (after env st)) /\
     network (trace env)
       = [SupabaseInsert exoplanet_datasets (rowsOf env content)] /\
     isTraining (after env st) = false).
Proof.
  intros Hfile. split.
  - intros thrown Htext. unfold after, trace, submit, handleStartTraining.
    run_handler. rewrite Hfile. run_handler. rewrite Htext. run_handler.
    run_replay. repeat split; reflexivity.
  - intros content thrown Htext Herrors Hpass Hinsert.
    unfold preflightPasses in Hpass. unfold rowsOf in *.
    enter Hfile Htext Herrors. rewrite Hpass, Hinsert. walk; run_replay.
    all: (split; [reflexivity|]; split; [eexists; ends|];
          split; reflexivity).
Qed.

Lemma upload_failure_witness :
  fst (submit unreadable) = Return /\
  trainingStatus (after unreadable (idle []))
    = [ stamp (clock 0) msg_starting;
        stamp (clock 1) msg_parsing;
        stamp (clock 2) (msg_upload_error (u16 "NotReadableError")) ].
Proof.
  destruct (upload_failure_is_caught_and_stops
              unreadable
              {| name := u16 "planets.csv";
                 text := Rejects (ThrownValue (VObject (u16 "NotReadableError"))) |}
              (idle []) eq_refl)
    as [H _].
  destruct (H (ThrownValue (VObject (u16 "NotReadableError"))) eq_refl)
    as (A & B & _).
  exact (conj A B).
Defined.

(** When both stages succeed (the response is ok and its body is a JSON
    value other than [null]), the handler completes: the insert and the
    POST are the two network operations, the log ends with the entry of
    completion, followed by the one about the metrics exactly when
    [metrics_json] is truthy, in which case it is stored; otherwise the
    stored metrics stay [null].  [isTraining] is false again. *)
Theorem successful_submission
    (env : environment) (f : file) (content : list N) (st : state)
    (response : response) (error metrics_json : value) :
  selectedFile env = Some f ->
  text f = Resolves content ->
  errors (parse env content) = [] ->
  preflightPasses env content = true ->
  insert env (rowsOf env content) = Resolves None ->
  fetch env (buildFormData env f) = Resolves response ->
  ok response = true ->
  json response = Resolves (JsonData error metrics_json) ->
  fst (submit env) = Normal tt /\
  network (trace env)
    = [SupabaseInsert exoplanet_datasets (rowsOf env content);
       Post train_url (buildFormData env f)] /\
  (if truthy metrics_json
   then (exists t1 t2, [stamp t1 msg_complete; stamp t2 msg_metrics]
                         `suffix_of` trainingStatus (after env st)) /\
        metricsJson (after env st) = metrics_json
   else (exists t, [stamp t msg_complete]
                     `suffix_of` trainingStatus (after env st)) /\
        metricsJson (after env st) = VNull) /\
  isTraining (after env st) = false.
Proof.
  intros Hfile Htext Herrors Hpass Hinsert Hfetch Hok Hjson.
  unfold preflightPasses in Hpass. unfold rowsOf in *.
  enter Hfile Htext Herrors. rewrite Hpass, Hinsert, Hfetch, Hjson, Hok.
  walk; run_replay.
  all: (split; [reflexivity|]; split; [reflexivity|]; split; [|reflexivity]).
  all: (split; [|reflexivity]).
  all: first [do 2 eexists; ends | eexists; ends].
Qed.

Lemma successful_submission_witness :
  fst (submit allGood) = Normal tt /\
  metricsJson (after allGood (idle [])) = VObject (u16 "[object Object]").
Proof.
  destruct (successful_submission
              allGood kepler (text_of kepler) (idle [])
              {| ok := true;
                 json := Resolves (JsonData VUndefined
                                            (VObject (u16 "[object Object]"))) |}
              VUndefined (VObject (u16 "[object Object]")))
    as (A & _ & B & _).
  - reflexivity.
  - reflexivity.
  - reflexivity.
  - vm_compute. reflexivity.
  - reflexivity.
  - reflexivity.
  - reflexivity.
  - reflexivity.
  - cbn [truthy] in B. exact (conj A (proj2 B)).
Defined.

(** ** What holds of every submission *)

(** Whatever the file, the parser and the two services answer, a
    submission with a selected file begins by setting [isTraining] and
    ends by resetting it. *)
Theorem submission_with_file_ends_idle
    (env : environment) (f : file) (st : state) :
  selectedFile env = Some f ->
  [PreventDefault; SetIsTraining true] `prefix_of` trace env /\
  [SetIsTraining false] `suffix_of` trace env /\
  isTraining (after env st) = false.
Proof.
  intros Hfile. unfold after, trace, submit, handleStartTraining.
  run_handler. rewrite Hfile. walk; run_replay.
  all: (split; [eexists; cbn [app]; reflexivity|];
        split; [ends|reflexivity]).
Qed.

Lemma submission_with_file_witness :
  isTraining (after offline (idle [])) = false.
Proof.
  destruct (submission_with_file_ends_idle offline kepler (idle []) eq_refl)
    as (_ & _ & H).
  exact H.
Defined.

(** The network operations of any submission: none; or the bulk insert
    alone; or the bulk insert followed by the POST of the form to the
    training endpoint, which happens only when the insert answered
    without error.  No operation is attempted twice. *)
Theorem network_operations_of_a_submission (env : environment) :
  network (trace env) = [] \/
  (exists rows, network (trace env) = [SupabaseInsert exoplanet_datasets rows]) \/
  (exists f rows,
     selectedFile env = Some f /\
     insert env rows = Resolves None /\
     network (trace env)
       = [SupabaseInsert exoplanet_datasets rows;
          Post train_url (buildFormData env f)]).
Proof.
  unfold trace, submit, handleStartTraining.
  run_handler. destruct (selectedFile env) as [f|] eqn:Hfile;
    [|left; reflexivity].
  walk; run_replay.
  all: first [ left; reflexivity
             | right; left; eexists; reflexivity
             | right; right; eexists _, _; split; [reflexivity|];
               split; [eassumption|reflexivity] ].
Qed.

(** The metrics stored after a submission with a selected file are
    [null], or the truthy [metrics_json] of an ok response: metrics of
    an earlier training never outlive a new submission. *)
Theorem stored_metrics_are_fresh
    (env : environment) (f : file) (st : state) :
  selectedFile env = Some f ->
  metricsJson (after env st) = VNull \/
  (truthy (metricsJson (after env st)) = true /\
   exists response error,
     fetch env (buildFormData env f) = Resolves response /\
     ok response = true /\
     json response = Resolves (JsonData error (metricsJson (after env st)))).
Proof.
  intros Hfile. unfold after, trace, submit, handleStartTraining.
  run_handler. rewrite Hfile. walk; run_replay.
  all: first [ left; reflexivity
             | right; reflect_tests; split; [assumption|];
               eexists _, _; repeat split;
               first [reflexivity | eassumption] ].
Qed.

Lemma stored_metrics_witness :
  metricsJson (after offline (idle [])) = VNull \/
  (truthy (metricsJson (after offline (idle []))) = true /\
   exists response error,
     fetch offline (buildFormData offline kepler) = Resolves response /\
     ok response = true /\
     json response
       = Resolves (JsonData error (metricsJson (after offline (idle []))))).
Proof.
  exact (stored_metrics_are_fresh offline kepler (idle []) eq_refl).
Defined.

Lemma stampedFrom_lookup env n (log : list (list N)) k entry :
  stampedFrom env n log ->
  log !! k = Some entry ->
  exists message, entry = stamp (toLocaleTimeString env (n + k)) message.
Proof.
  revert n k. induction log as [|e log IH]; intros n k H L.
  - rewrite lookup_nil in L. discriminate L.
  - destruct H as [He Hlog]. destruct k as [|k].
    + cbn in L. injection L as <-. rewrite Nat.add_0_r. exact He.
    + cbn in L. rewrite <- Nat.add_succ_comm. exact (IH _ _ Hlog L).
Qed.

(** Each entry of the log is stamped with its own reading of the clock:
    the entry appended at position [k] carries the [k]-th reading. *)
Theorem entries_are_stamped_in_order
    (env : environment) (k : nat) (entry : list N) :
  appended (trace env) !! k = Some entry ->
  exists message, entry = stamp (toLocaleTimeString env k) message.
Proof.
  apply (stampedFrom_lookup env 0).
  unfold trace, submit, handleStartTraining. walk; run_replay.
  all: cbn [stampedFrom]; repeat split; eexists; reflexivity.
Qed.

Lemma entries_are_stamped_witness :
  exists message,
    stamp (clock 1) msg_parsing = stamp (toLocaleTimeString offline 1) message.
Proof.
  apply (entries_are_stamped_in_order offline 1 (stamp (clock 1) msg_parsing)).
  vm_compute. reflexivity.
Defined.

End SubmissionFacts.

(* ===================================================================== *)
(** * Properties of the other version of the page                         *)
(* ===================================================================== *)

Module DatasetFacts.
Import JS ColumnMapper RowTransformer Handler MapperFacts TransformerFacts.
Import DatasetPage.

(** ** The name check of [handleFileChange] *)

Lemma rev_flat_map {A B} (f : A -> list B) (l : list A) :
  rev (flat_map f l) = flat_map (fun a => rev (f a)) (rev l).
Proof.
  induction l as [|a l IH]; [reflexivity|].
  cbn [flat_map rev]. rewrite rev_app_distr, IH, flat_map_app.
  cbn [flat_map]. rewrite app_nil_r. reflexivity.
Qed.

(** [endsWith], read from the end. *)
Lemma endsWith_rev (s suffix : list N) :
  endsWith s suffix
  = bool_decide (firstn (length suffix) (rev s) = rev suffix).
Proof.
  unfold endsWith. apply bool_decide_ext.
  rewrite List.firstn_rev. split.
  - intros ->. reflexivity.
  - intros H. apply (f_equal (@rev N)) in H.
    rewrite !rev_involutive in H. exact H.
Qed.

Lemma lowerUnit_shape (c : N) :
  (c = 0x0130 /\ lowerUnit c = [105; 0x0307]) \/
  (65 <= c <= 90 /\ lowerUnit c = [c + 32]) \/
  (c = 0x212A /\ lowerUnit c = [107]) \/
  (c <> 0x0130 /\ c <> 0x212A /\ ~ 65 <= c <= 90 /\ lowerUnit c = [c]).
Proof.
  unfold lowerUnit.
  destruct (N.leb_spec 65 c), (N.leb_spec c 90); cbn [andb];
    try (right; left; split; [lia|reflexivity]).
  all: destruct (N.eqb_spec c 0x212A);
    try (right; right; left; split; [assumption|reflexivity]).
  all: destruct (N.eqb_spec c 0x0130);
    try (left; split; [assumption|reflexivity]).
  all: right; right; right; repeat split; try assumption; lia.
Qed.

Lemma lowersTo_spec (t c : N) :
  lowersTo t c = true <-> c = t \/ (97 <= t <= 122 /\ c + 32 = t).
Proof.
  unfold lowersTo.
  rewrite orb_true_iff, !andb_true_iff, !N.eqb_eq, !N.leb_le. tauto.
Qed.

Lemma lowered_head (t c : N) (ts rest : list N) (k : nat) :
  t = 46 \/ t = 99 \/ t = 115 \/ t = 118 ->
  (firstn (S k) (rev (lowerUnit c) ++ rest) = t :: ts) <->
  (lowersTo t c = true /\ firstn k rest = ts).
Proof.
  intros Ht. rewrite lowersTo_spec.
  destruct (lowerUnit_shape c)
    as [[Hc ->]|[[Hc ->]|[[Hc ->]|(H1 & H2 & H3 & ->)]]];
    cbn [rev app firstn].
  all: split;
    [ intros E; injection E as E1 E2;
      first [exfalso; lia | split; [lia|exact E2]]
    | intros [L E]; first [exfalso; lia | rewrite E; f_equal; lia] ].
Qed.

Lemma endsWith_csv (name : list N) :
  endsWith (toLowerCase name) (u16 ".csv") = csvName name.
Proof.
  rewrite endsWith_rev. unfold toLowerCase, csvName.
  rewrite rev_flat_map.
  change (length (u16 ".csv")) with 4%nat.
  change (rev (u16 ".csv")) with [118; 115; 99; 46].
  destruct (rev name) as [|v [|s [|c [|dot rest]]]].
  - reflexivity.
  - apply bool_decide_eq_false. cbn [flat_map]. rewrite lowered_head by tauto.
    intros [_ H]. discriminate H.
  - apply bool_decide_eq_false. cbn [flat_map].
    rewrite lowered_head by tauto. intros [_ H]. revert H.
    rewrite lowered_head by tauto. intros [_ H]. discriminate H.
  - apply bool_decide_eq_false. cbn [flat_map].
    rewrite lowered_head by tauto. intros [_ H]. revert H.
    rewrite lowered_head by tauto. intros [_ H]. revert H.
    rewrite lowered_head by tauto. intros [_ H]. discriminate H.
  - cbn [flat_map].
    destruct ((dot =? 46) && ((c =? 99) || (c =? 67)) &&
              ((s =? 115) || (s =? 83)) && ((v =? 118) || (v =? 86))) eqn:B.
    + apply bool_decide_eq_true.
      rewrite !andb_true_iff, !orb_true_iff, !N.eqb_eq in B.
      destruct B as [[[Hd Hc] Hs] Hv].
      apply lowered_head; [tauto|]. split; [apply lowersTo_spec; lia|].
      apply lowered_head; [tauto|]. split; [apply lowersTo_spec; lia|].
      apply lowered_head; [tauto|]. split; [apply lowersTo_spec; lia|].
      apply lowered_head; [tauto|]. split; [apply lowersTo_spec; lia|].
      reflexivity.
    + apply bool_decide_eq_false. intros H.
      apply lowered_head in H as [Hv H]; [|tauto].
      apply lowered_head in H as [Hs H]; [|tauto].
      apply lowered_head in H as [Hc H]; [|tauto].
      apply lowered_head in H as [Hd _]; [|tauto].
      apply lowersTo_spec in Hv, Hs, Hc, Hd.
      assert (T : (dot =? 46) && ((c =? 99) || (c =? 67)) &&
                  ((s =? 115) || (s =? 83)) && ((v =? 118) || (v =? 86)) = true).
      { rewrite !andb_true_iff, !orb_true_iff, !N.eqb_eq. lia. }
      rewrite T in B. discriminate B.
Qed.

(** [handleFileChange] selects a file exactly when its name ends in
    [.csv], whatever the case of the three letters, and then logs the
    name; for any other name it logs an error and leaves the selection
    as it was, so an earlier file stays selected; without a file it
    does nothing. *)
Theorem handleFileChange_selects_csv_names_only
    (files : option (list file)) (timestamp : list N) (selected : option file) :
  match files with
  | Some (file :: _) =>
      if csvName (name file)
      then handleFileChange files timestamp
             = [SetSelectedFile file;
                SetStatus (Append (stamp timestamp
                                     (u16 "File selected: " ++ name file)))] /\
           selection selected (handleFileChange files timestamp) = Some file
      else handleFileChange files timestamp
             = [SetStatus (Append (stamp timestamp
                                     (u16 "Error: Please upload a .csv file")))] /\
           selection selected (handleFileChange files timestamp) = selected
  | _ => handleFileChange files timestamp = []
  end.
Proof.
  destruct files as [[|file others]|]; [reflexivity| |reflexivity].
  unfold handleFileChange. rewrite endsWith_csv.
  destruct (csvName (name file)); cbn [negb]; split; reflexivity.
Qed.

(** ** The cleaning of the rows *)

Lemma trimStart_idempotent s : trimStart (trimStart s) = trimStart s.
Proof.
  induction s as [|c s IH]; [reflexivity|].
  cbn [trimStart]. destruct (isWhiteSpace c) eqn:W; [exact IH|].
  cbn [trimStart]. rewrite W. reflexivity.
Qed.

(** What is left of the start of a string has lost no white space at
    its end that the string did not have. *)
Lemma trimStart_trimEnd s : trimStart (trimEnd s) = trimEnd (trimStart s).
Proof.
  unfold trimEnd. induction s as [|c s IH]; [reflexivity|].
  cbn [trimStart rev]. destruct (isWhiteSpace c) eqn:W.
  - rewrite <- IH. clear IH.
    destruct (trimStart (rev s)) as [|d r] eqn:E.
    + assert (A : trimStart (rev s ++ [c]) = []).
      { apply trimStart_nil. unfold whitespaceOnly.
        rewrite forallb_app. cbn [forallb].
        apply trimStart_nil in E. unfold whitespaceOnly in E.
        rewrite E, W. reflexivity. }
      rewrite A. reflexivity.
    + assert (A : trimStart (rev s ++ [c]) = (d :: r) ++ [c]).
      { clear W. revert E. generalize (rev s). intros l.
        induction l as [|x l IHl]; [discriminate|].
        cbn [trimStart app]. destruct (isWhiteSpace x); [exact IHl|].
        intros [= <- <-]. reflexivity. }
      rewrite A, rev_app_distr. cbn [rev app trimStart]. rewrite W.
      reflexivity.
  - cbn [rev]. destruct (trimStart (rev s ++ [c])) as [|d r] eqn:E.
    + apply trimStart_nil in E. unfold whitespaceOnly in E.
      rewrite forallb_app in E. cbn [forallb] in E.
      rewrite W in E. rewrite andb_false_r in E. discriminate E.
    + assert (A : exists r', rev (d :: r) = c :: r').
      { assert (L : exists q, d :: r = q ++ [c]).
        { revert E. generalize (rev s). intros l.
          induction l as [|x l IHl].
          - cbn [app trimStart]. rewrite W. intros [= <- <-]. exists []. reflexivity.
          - cbn [app trimStart]. destruct (isWhiteSpace x); [exact IHl|].
            intros [= <- <-]. exists (x :: l). reflexivity. }
        destruct L as [q ->]. rewrite rev_app_distr. cbn [rev app].
        eexists. reflexivity. }
      destruct A as [r' A]. rewrite A. cbn [trimStart]. rewrite W. reflexivity.
Qed.

Lemma trim_idempotent s : trim (trim s) = trim s.
Proof.
  unfold trim. rewrite trimStart_trimEnd, trimStart_idempotent.
  unfold trimEnd. rewrite rev_involutive, trimStart_idempotent. reflexivity.
Qed.

Section CleaningFacts.
Variable number : Type.
Variable parseFloat : value -> option number.

Lemma fold_cleanCell_untouched key (post : list (list N * value)) cleanedRow :
  Forall (fun cell => trim (fst cell) <> key) post ->
  fold_left (cleanCell number parseFloat) post cleanedRow !! key
  = cleanedRow !! key.
Proof.
  revert cleanedRow. induction post as [|[k v] post IH]; intros m H.
  - reflexivity.
  - apply Forall_cons in H as [Hk Hpost]. cbn [fst] in Hk.
    cbn [fold_left]. rewrite (IH _ Hpost). unfold cleanCell.
    destruct (negb (bool_decide (trim k = []))); [|reflexivity].
    apply lookup_insert_ne. exact Hk.
Qed.

Lemma fold_cleanCell_dom key (row : list (list N * value)) cleanedRow :
  key ∈ dom (fold_left (cleanCell number parseFloat) row cleanedRow) <->
  key ∈ dom cleanedRow \/
  (key <> [] /\ exists cell, cell ∈ row /\ trim (fst cell) = key).
Proof.
  revert cleanedRow. induction row as [|[k v] row IH]; intros m.
  - cbn [fold_left]. split; [intros H; left; exact H|].
    intros [H|(_ & cell & Hin & _)]; [exact H|].
    apply elem_of_nil in Hin. destruct Hin.
  - cbn [fold_left]. rewrite IH. unfold cleanCell.
    destruct (bool_decide (trim k = [])) eqn:B; cbn [negb].
    + apply bool_decide_eq_true in B. split.
      * intros [H|(Hne & cell & Hin & E)]; [left; exact H|].
        right. split; [exact Hne|]. exists cell.
        split; [apply list_elem_of_further; exact Hin|exact E].
      * intros [H|(Hne & cell & Hin & E)]; [left; exact H|].
        apply elem_of_cons in Hin as [->|Hin].
        -- cbn [fst] in E. rewrite B in E. destruct (Hne (eq_sym E)).
        -- right. split; [exact Hne|]. exists cell. split; assumption.
    + apply bool_decide_eq_false in B.
      rewrite dom_insert_L, elem_of_union, elem_of_singleton. split.
      * intros [[->|H]|(Hne & cell & Hin & E)].
        -- right. split; [exact B|]. exists (k, v).
           split; [apply list_elem_of_here|reflexivity].
        -- left. exact H.
        -- right. split; [exact Hne|]. exists cell.
           split; [apply list_elem_of_further; exact Hin|exact E].
      * intros [H|(Hne & cell & Hin & E)]; [left; right; exact H|].
        apply elem_of_cons in Hin as [->|Hin].
        -- left. left. symmetry. exact E.
        -- right. split; [exact Hne|]. exists cell. split; assumption.
Qed.



End CleaningFacts.


(** ** The form that is sent *)

Lemma filter_replaceFirst_other name v (fd : formData)
    (P : list N * formValue -> bool) :
  (forall entry, fst entry = name -> P entry = false) ->
  List.filter P (replaceFirst name v fd) = List.filter P fd.
Proof.
  intros HP. induction fd as [|entry rest IH]; [reflexivity|].
  cbn [replaceFirst]. unfold named at 1.
  destruct (bool_decide (fst entry = name)) eqn:B.
  - apply bool_decide_eq_true in B. cbn [List.filter].
    rewrite (HP (name, v) eq_refl), (HP entry B).
    clear IH B. induction rest as [|e rest IH]; [reflexivity|].
    cbn [List.filter]. unfold named at 1.
    destruct (bool_decide (fst e = name)) eqn:B; cbn [negb].
    + apply bool_decide_eq_true in B. rewrite (HP e B). exact IH.
    + cbn [List.filter]. rewrite IH. reflexivity.
  - cbn [List.filter]. rewrite IH. reflexivity.
Qed.

Lemma filter_formSet_other name v (fd : formData)
    (P : list N * formValue -> bool) :
  (forall entry, fst entry = name -> P entry = false) ->
  List.filter P (formSet name v fd) = List.filter P fd.
Proof.
  intros HP. unfold formSet. destruct (existsb (named name) fd).
  - apply filter_replaceFirst_other. exact HP.
  - rewrite List.filter_app. cbn [List.filter].
    rewrite (HP (name, v) eq_refl). apply app_nil_r.
Qed.

Lemma filter_named_removed name (fd : formData) :
  List.filter (named name) (List.filter (fun e => negb (named name e)) fd) = [].
Proof.
  induction fd as [|e fd IH]; [reflexivity|].
  cbn [List.filter]. destruct (named name e) eqn:B; cbn [negb]; [exact IH|].
  cbn [List.filter]. rewrite B. exact IH.
Qed.

Lemma filter_formSet_same name v (fd : formData) :
  List.filter (named name) (formSet name v fd) = [(name, v)].
Proof.
  assert (Hn : named name (name, v) = true) by (apply bool_decide_eq_true; reflexivity).
  unfold formSet. destruct (existsb (named name) fd) eqn:X.
  - induction fd as [|e fd IH]; [discriminate X|].
    cbn [replaceFirst]. cbn [existsb] in X.
    destruct (named name e) eqn:B.
    + cbn [List.filter]. rewrite Hn, filter_named_removed. reflexivity.
    + cbn [List.filter]. rewrite B. apply IH. exact X.
  - rewrite List.filter_app. cbn [List.filter]. rewrite Hn.
    replace (List.filter (named name) fd) with (@nil (list N * formValue));
      [reflexivity|].
    symmetry. clear Hn. induction fd as [|e fd IH]; [reflexivity|].
    cbn [existsb] in X. apply orb_false_iff in X as [B X].
    cbn [List.filter]. rewrite B. apply IH. exact X.
Qed.

(** Whatever the form holds, the form data sent has one part named
    [file], the selected file, and one part named [train_test_split],
    the numeral of [trainTestSplit / 100]; the parts of other names
    are those of the form, in their order. *)
Theorem fd_has_one_file_and_one_split
    (controls : formData) (trainTestSplit : Z) (selectedFile : file) :
  List.filter (named (u16 "file")) (buildFd controls trainTestSplit selectedFile)
    = [(u16 "file", FormFile selectedFile)] /\
  List.filter (named (u16 "train_test_split"))
              (buildFd controls trainTestSplit selectedFile)
    = [(u16 "train_test_split", FormText (hundredthsToString trainTestSplit))] /\
  List.filter (fun e => negb (named (u16 "file") e) &&
                        negb (named (u16 "train_test_split") e))
              (buildFd controls trainTestSplit selectedFile)
    = List.filter (fun e => negb (named (u16 "file") e) &&
                            negb (named (u16 "train_test_split") e))
                  controls.
Proof.
  unfold buildFd. split; [apply filter_formSet_same|]. split.
  - rewrite filter_formSet_other; [apply filter_formSet_same|].
    intros entry E. apply bool_decide_eq_false. rewrite E.
    vm_compute. discriminate.
  - rewrite !filter_formSet_other; [reflexivity| |].
    + intros entry E. unfold named.
      rewrite (bool_decide_true (fst entry = u16 "train_test_split")) by exact E.
      apply andb_false_r.
    + intros entry E. unfold named.
      rewrite (bool_decide_true (fst entry = u16 "file")) by exact E.
      reflexivity.
Qed.

(** ** The address of the training endpoint *)

(** The alternative ["/api/train"] of the address is never taken: the
    sum before it is a string that is not empty.  Without the setting
    the address begins with "undefined". *)
Theorem apiUrl_never_falls_back (VITE_API_BASE : option (list N)) :
  apiUrl VITE_API_BASE
  = VString (match VITE_API_BASE with
             | Some base => base
             | None => u16 "undefined"
             end ++ u16 "/api/train") /\
  apiUrl None = VString (u16 "undefined/api/train") /\
  (apiUrl VITE_API_BASE = VString (u16 "/api/train") <->
   VITE_API_BASE = Some []).
Proof.
  assert (E : apiUrl VITE_API_BASE
              = VString (match VITE_API_BASE with
                         | Some base => base
                         | None => u16 "undefined"
                         end ++ u16 "/api/train")).
  { unfold apiUrl, orElse, plusString, optionalToString.
    destruct VITE_API_BASE as [base|]; cbn [toString truthy].
    - destruct base; reflexivity.
    - reflexivity. }
  split; [exact E|]. split; [reflexivity|].
  rewrite E. split.
  - intros [= H]. destruct VITE_API_BASE as [base|].
    + f_equal. apply (app_inv_tail (u16 "/api/train")). exact H.
    + vm_compute in H. discriminate H.
  - intros ->. reflexivity.
Qed.

End DatasetFacts.

(* ===================================================================== *)
(** * Properties of the score board                                       *)
(* ===================================================================== *)

Module GameFacts.
Import JS Game.
Local Open Scope Z_scope.

(** ** Sorting *)

Lemma insertByScore_perm (x : entry) (l : list entry) :
  insertByScore x l ≡ₚ x :: l.
Proof.
  induction l as [|y l IH]; [reflexivity|].
  cbn [insertByScore]. destruct (snd x <? snd y); [|reflexivity].
  rewrite IH. apply Permutation_swap.
Qed.

Lemma sortByScore_perm (board : list entry) : sortByScore board ≡ₚ board.
Proof.
  unfold sortByScore. induction board as [|x l IH]; [reflexivity|].
  cbn [foldr]. rewrite insertByScore_perm, IH. reflexivity.
Qed.

Lemma insertByScore_falling (x : entry) (l : list entry) :
  falling l -> falling (insertByScore x l).
Proof.
  induction l as [|y l IH]; intros H.
  - cbn. split; constructor.
  - cbn [insertByScore]. destruct H as [Hy Hl].
    destruct (Z.ltb_spec (snd x) (snd y)) as [Lt|Ge].
    + cbn [falling]. split; [|exact (IH Hl)].
      rewrite insertByScore_perm. constructor; [lia|exact Hy].
    + cbn [falling]. split; [|split; assumption].
      constructor; [exact Ge|].
      eapply Forall_impl; [exact Hy|]. cbn beta. intros z Hz. lia.
Qed.

Lemma sortByScore_falling (board : list entry) : falling (sortByScore board).
Proof.
  unfold sortByScore. induction board as [|x l IH]; [exact I|].
  cbn [foldr]. apply insertByScore_falling, IH.
Qed.

Lemma falling_split (a b : list entry) :
  falling (a ++ b) ->
  forall shown hidden, shown ∈ a -> hidden ∈ b -> snd hidden <= snd shown.
Proof.
  induction a as [|x a IH]; intros H shown hidden Hs Hh.
  - apply elem_of_nil in Hs. destruct Hs.
  - cbn [app falling] in H. destruct H as [Hx Ha].
    apply elem_of_cons in Hs as [->|Hs].
    + rewrite Forall_forall in Hx. apply Hx.
      apply elem_of_app. right. exact Hh.
    + exact (IH Ha shown hidden Hs Hh).
Qed.

(** Reading the leader board sorts the array in place by falling score
    without losing or adding an entry; the data are its first three
    entries (all of them when there are fewer), and no entry left out
    scores more than an entry shown. *)
Theorem selectTop3_shows_the_best_three (board : list entry) :
  snd (selectTop3 board) ≡ₚ board /\
  falling (snd (selectTop3 board)) /\
  fst (selectTop3 board) = firstn 3 (snd (selectTop3 board)) /\
  length (fst (selectTop3 board)) = Nat.min 3 (length board) /\
  (forall shown hidden,
     shown ∈ fst (selectTop3 board) ->
     hidden ∈ skipn 3 (snd (selectTop3 board)) ->
     snd hidden <= snd shown).
Proof.
  unfold selectTop3. cbn [fst snd].
  split; [apply sortByScore_perm|]. split; [apply sortByScore_falling|].
  split; [reflexivity|]. split.
  - rewrite length_take. rewrite (Permutation_length (sortByScore_perm board)).
    reflexivity.
  - apply falling_split. rewrite firstn_skipn. apply sortByScore_falling.
Qed.

(** ** The best score of a user *)

Lemma maxOf_spec (first : Z) (others : list Z) :
  (maxOf first others = first \/ maxOf first others ∈ others) /\
  first <= maxOf first others /\
  Forall (fun z => z <= maxOf first others) others.
Proof.
  unfold maxOf. revert first. induction others as [|z l IH]; intros first.
  - cbn. split; [left; reflexivity|]. split; [lia|constructor].
  - cbn [fold_left]. destruct (IH (Z.max first z)) as (A & B & C).
    split; [|split].
    + destruct A as [A|A].
      * rewrite A. destruct (Z.max_spec first z) as [[_ ->]|[_ ->]].
        -- right. apply list_elem_of_here.
        -- left. reflexivity.
      * right. apply list_elem_of_further. exact A.
    + lia.
    + constructor; [lia|exact C].
Qed.

(** The best score is 0 for a user without entry; otherwise it is the
    score of one of the user's entries and none of them scores more. *)
Lemma best_spec (board : list entry) (user : list N) (z : Z) :
  best board user = z <->
  ((forall e, e ∈ board -> fst e <> user) /\ z = 0) \/
  ((user, z) ∈ board /\ forall s, (user, s) ∈ board -> s <= z).
Proof.
  unfold best, selectTopScore.
  assert (M : forall s, s ∈ List.map snd (List.filter (isUser user) board)
                        <-> (user, s) ∈ board).
  { intros s. rewrite list_elem_of_In, List.in_map_iff. split.
    - intros ([u s'] & E & Hin). cbn [snd] in E. subst s'.
      apply List.filter_In in Hin as [Hin Hu].
      apply bool_decide_eq_true in Hu. cbn [fst] in Hu. subst u.
      apply list_elem_of_In. exact Hin.
    - intros Hin. exists (user, s). split; [reflexivity|].
      apply List.filter_In. split; [apply list_elem_of_In; exact Hin|].
      apply bool_decide_eq_true. reflexivity. }
  destruct (List.map snd (List.filter (isUser user) board)) as [|first others] eqn:E.
  - split.
    + intros <-. left. split; [|reflexivity].
      intros [u s] Hin Hu. cbn [fst] in Hu. subst u.
      apply M in Hin. apply elem_of_nil in Hin. exact Hin.
    + intros [[_ ->]|[Hin _]]; [reflexivity|].
      apply M in Hin. apply elem_of_nil in Hin. destruct Hin.
  - destruct (maxOf_spec first others) as (A & B & C).
    assert (In_max : (user, maxOf first others) ∈ board).
    { apply M. destruct A as [->|A];
        [apply list_elem_of_here|apply list_elem_of_further; exact A]. }
    assert (Le : forall s, (user, s) ∈ board -> s <= maxOf first others).
    { intros s Hs. apply M in Hs. apply elem_of_cons in Hs as [->|Hs]; [exact B|].
      rewrite Forall_forall in C. exact (C s Hs). }
    split.
    + intros <-. right. split; assumption.
    + intros [[Hnone _]|[Hin Hle]].
      * destruct (Hnone _ In_max). reflexivity.
      * apply Z.le_antisymm; [apply Hle; exact In_max|apply Le; exact Hin].
Qed.

Lemma best_perm (a b : list entry) (user : list N) :
  a ≡ₚ b -> best a user = best b user.
Proof.
  intros P. apply best_spec.
  destruct (proj1 (best_spec b user (best b user)) eq_refl)
    as [[Hnone E]|[Hin Hle]].
  - left. split; [|exact E]. intros e He. apply Hnone. rewrite <- P. exact He.
  - right. split; [rewrite P; exact Hin|].
    intros s Hs. apply Hle. rewrite <- P. exact Hs.
Qed.

(** ** [insert] *)

Lemma raiseFirst_elem (username : list N) (score : Z) (board : list entry)
    (e : entry) :
  e ∈ raiseFirst username score board ->
  e ∈ board \/ (e = (username, score) /\ exists old, (username, old) ∈ board /\ old < score).
Proof.
  induction board as [|[u s] rest IH]; intros H; [left; exact H|].
  cbn [raiseFirst] in H. unfold isUser in H. cbn [fst snd] in H.
  destruct (bool_decide (u = username)) eqn:B.
  - apply bool_decide_eq_true in B. subst u.
    destruct (Z.ltb_spec s score) as [Lt|Ge]; [|left; exact H].
    apply elem_of_cons in H as [->|H].
    + right. split; [reflexivity|]. exists s.
      split; [apply list_elem_of_here|exact Lt].
    + left. apply list_elem_of_further. exact H.
  - apply elem_of_cons in H as [->|H]; [left; apply list_elem_of_here|].
    destruct (IH H) as [Hin|(E & old & Hin & Lt)].
    + left. apply list_elem_of_further. exact Hin.
    + right. split; [exact E|]. exists old.
      split; [apply list_elem_of_further; exact Hin|exact Lt].
Qed.

Lemma raiseFirst_keeps (username : list N) (score : Z) (board : list entry)
    (u : list N) (s : Z) :
  (u, s) ∈ board ->
  exists s', (u, s') ∈ raiseFirst username score board /\ s <= s'.
Proof.
  induction board as [|[v t] rest IH]; intros H.
  - apply elem_of_nil in H. destruct H.
  - cbn [raiseFirst]. unfold isUser. cbn [fst snd].
    destruct (bool_decide (v = username)) eqn:B.
    + apply elem_of_cons in H as [E|H].
      * injection E as -> ->.
        destruct (Z.ltb_spec t score) as [Lt|Ge].
        -- exists score. split; [apply list_elem_of_here|lia].
        -- exists t. split; [apply list_elem_of_here|lia].
      * exists s. split; [apply list_elem_of_further; exact H|lia].
    + apply elem_of_cons in H as [E|H].
      * injection E as -> ->. exists t. split; [apply list_elem_of_here|lia].
      * destruct (IH H) as (s' & Hin & Le). exists s'.
        split; [apply list_elem_of_further; exact Hin|exact Le].
Qed.

Lemma raiseFirst_reaches (username : list N) (score : Z) (board : list entry) :
  existsb (isUser username) board = true ->
  exists s', (username, s') ∈ raiseFirst username score board /\ score <= s'.
Proof.
  induction board as [|[v t] rest IH]; intros H; [discriminate H|].
  cbn [existsb] in H. cbn [raiseFirst]. unfold isUser in *. cbn [fst snd] in *.
  destruct (bool_decide (v = username)) eqn:B.
  - apply bool_decide_eq_true in B. subst v.
    destruct (Z.ltb_spec t score) as [Lt|Ge].
    + exists score. split; [apply list_elem_of_here|lia].
    + exists t. split; [apply list_elem_of_here|lia].
  - cbn [orb] in H. destruct (IH H) as (s' & Hin & Le). exists s'.
    split; [apply list_elem_of_further; exact Hin|exact Le].
Qed.

Lemma raiseFirst_names (username : list N) (score : Z) (board : list entry) :
  List.map fst (raiseFirst username score board) = List.map fst board.
Proof.
  induction board as [|[v t] rest IH]; [reflexivity|].
  cbn [raiseFirst]. unfold isUser. cbn [fst snd].
  destruct (bool_decide (v = username)).
  - destruct (t <? score); reflexivity.
  - cbn [List.map fst]. rewrite IH. reflexivity.
Qed.

Lemma existsb_isUser (board : list entry) (user : list N) :
  existsb (isUser user) board = true <-> exists s, (user, s) ∈ board.
Proof.
  rewrite existsb_exists. split.
  - intros ([u s] & Hin & Hu). apply bool_decide_eq_true in Hu.
    cbn [fst] in Hu. subst u. exists s. apply list_elem_of_In. exact Hin.
  - intros (s & Hin). exists (user, s).
    split; [apply list_elem_of_In; exact Hin|].
    apply bool_decide_eq_true. reflexivity.
Qed.

Lemma insert_spec
    (board : list entry) (username : list N) (score : Z) :
  best (insert board username score) username
    = (if existsb (isUser username) board
       then Z.max (best board username) score
       else score) /\
  (forall other, other <> username ->
                 best (insert board username score) other = best board other) /\
  List.map fst (insert board username score)
    = (if existsb (isUser username) board
       then List.map fst board
       else List.map fst board ++ [username]) /\
  (NoDup (List.map fst board) ->
   NoDup (List.map fst (insert board username score))).
Proof.
  unfold insert.
  destruct (existsb (isUser username) board) eqn:X.
  - split; [|split; [|split]].
    + apply best_spec. right.
      destruct (proj1 (best_spec board username (best board username)) eq_refl)
        as [[Hnone _]|[Hin Hle]].
      { apply existsb_isUser in X as (s & Hs). destruct (Hnone _ Hs). reflexivity. }
      assert (Le : forall s, (username, s) ∈ raiseFirst username score board ->
                             s <= Z.max (best board username) score).
      { intros s Hs. apply raiseFirst_elem in Hs as [Hs|([= ->] & _)];
          [apply Hle in Hs|]; lia. }
      split; [|exact Le].
      destruct (Z.max_spec (best board username) score) as [[Lt ->]|[Ge ->]].
      * destruct (raiseFirst_reaches username score board X) as (s' & Hs' & L).
        pose proof (Le _ Hs'). assert (E : s' = score) by lia.
        subst s'. exact Hs'.
      * destruct (raiseFirst_keeps username score board _ _ Hin) as (s' & Hs' & L).
        pose proof (Le _ Hs'). assert (E : s' = best board username) by lia.
        rewrite <- E. exact Hs'.
    + intros other Hother. apply best_spec.
      destruct (proj1 (best_spec board other (best board other)) eq_refl)
        as [[Hnone E]|[Hin Hle]].
      * left. split; [|exact E]. intros e He Hfst.
        apply raiseFirst_elem in He as [He|(-> & _)].
        -- exact (Hnone e He Hfst).
        -- cbn [fst] in Hfst. apply Hother. symmetry. exact Hfst.
      * right. split.
        -- destruct (raiseFirst_keeps username score board _ _ Hin)
             as (s' & Hs' & L).
           assert (E : s' = best board other).
           { apply Z.le_antisymm; [|exact L].
             apply raiseFirst_elem in Hs' as [Hs'|([= E _] & _)].
             - apply Hle. exact Hs'.
             - destruct (Hother E). }
           rewrite <- E. exact Hs'.
        -- intros s Hs. apply raiseFirst_elem in Hs as [Hs|([= E _] & _)].
           ++ apply Hle. exact Hs.
           ++ destruct (Hother E).
    + apply raiseFirst_names.
    + rewrite raiseFirst_names. intros H. exact H.
  - assert (Habsent : forall s, (username, s) ∉ board).
    { intros s Hs.
      assert (T : existsb (isUser username) board = true)
        by (apply existsb_isUser; exists s; exact Hs).
      rewrite T in X. discriminate X. }
    split; [|split; [|split]].
    + apply best_spec. right. split.
      * apply elem_of_app. right. apply list_elem_of_here.
      * intros s Hs. apply elem_of_app in Hs as [Hs|Hs].
        -- destruct (Habsent s Hs).
        -- apply list_elem_of_singleton in Hs. injection Hs as ->. lia.
    + intros other Hother. apply best_spec.
      destruct (proj1 (best_spec board other (best board other)) eq_refl)
        as [[Hnone E]|[Hin Hle]].
      * left. split; [|exact E]. intros e He Hfst.
        apply elem_of_app in He as [He|He]; [exact (Hnone e He Hfst)|].
        apply list_elem_of_singleton in He. subst e. cbn [fst] in Hfst.
        apply Hother. symmetry. exact Hfst.
      * right. split; [apply elem_of_app; left; exact Hin|].
        intros s Hs. apply elem_of_app in Hs as [Hs|Hs]; [apply Hle; exact Hs|].
        apply list_elem_of_singleton in Hs. injection Hs as E _.
        destruct (Hother E).
    + rewrite List.map_app. reflexivity.
    + intros H. rewrite List.map_app. cbn [List.map fst].
      apply NoDup_app. split; [exact H|]. split; [|apply NoDup_singleton].
      intros u Hu Hu'. apply list_elem_of_singleton in Hu'. subst u.
      apply list_elem_of_In, List.in_map_iff in Hu as ([u s] & E & Hin).
      cbn [fst] in E. subst u. apply (Habsent s). apply list_elem_of_In. exact Hin.
Qed.

(** Saving a score on the board never lowers the best score of anyone:
    the best score of the user becomes the larger of the former best
    and the new score when the user has an entry, and the new score
    when not; the best score of every other user stays; the names on
    the board stay in their order, with the new name added at the end
    when it was not there, so names that were distinct stay distinct. *)
Theorem insert_keeps_the_best_scores
    (board : list entry) (username : list N) (score : Z) :
  best (insert board username score) username
    = (if existsb (isUser username) board
       then Z.max (best board username) score
       else score) /\
  (forall other, other <> username ->
                 best (insert board username score) other = best board other) /\
  List.map fst (insert board username score)
    = (if existsb (isUser username) board
       then List.map fst board
       else List.map fst board ++ [username]) /\
  (NoDup (List.map fst board) ->
   NoDup (List.map fst (insert board username score))).
Proof. apply insert_spec. Qed.

(** [saveScore] with a blank user name only reports the missing name:
    the board, the leader board shown and [saving] stay as they are.
    With a name, the score is stored exactly when it is more than the
    best score of that name on the board, and the message says which;
    afterwards the best score of the name is the larger of the two,
    the best score of everyone else is as before, the board is in
    falling order, the leader board shows its first three entries,
    and [saving] and the error are cleared. *)
Theorem saveScore_outcome (st : state) (board : list entry) :
  let name := trim (username st) in
  let st' := fst (saveScore st board) in
  let board' := snd (saveScore st board) in
  if bool_decide (name = [])
  then board' = board /\
       saveError st' = u16 "Please enter a username before saving." /\
       saveMessage st' = [] /\
       saving st' = saving st /\
       leaderboard st' = leaderboard st
  else saving st' = false /\
       saveError st' = [] /\
       saveMessage st'
         = (if best board name <? score st
            then u16 "New high score saved!"
            else u16 "Score not saved - not a new high score") /\
       best board' name = Z.max (best board name) (score st) /\
       (forall other, other <> name -> best board' other = best board other) /\
       falling board' /\
       leaderboard st' = firstn 3 board' /\
       score st' = score st.
Proof.
  cbv zeta. unfold saveScore.
  destruct (trim (username st)) as [|c name] eqn:T.
  - cbn [setSaveError setSaveMessage username]. rewrite T.
    rewrite bool_decide_true by reflexivity. cbn. repeat split; reflexivity.
  - cbn [setSaveError setSaveMessage username]. rewrite T.
    rewrite bool_decide_false by discriminate.
    assert (Z0 : orZero (selectTopScore board (c :: name))
                 = best board (c :: name)).
    { unfold orZero, best.
      destruct (Z.eqb_spec (selectTopScore board (c :: name)) 0) as [->|_];
        reflexivity. }
    rewrite Z0.
    change (score (setSaving true (setSaveError [] (setSaveMessage [] st))))
      with (score st).
    destruct (insert_spec board (c :: name) (score st)) as (I1 & I2 & _).
    destruct (Z.ltb_spec (best board (c :: name)) (score st)) as [Lt|Ge].
    + cbn [loadTop3 selectTop3 setSaving setSaveMessage setLeaderboard fst snd
           saving saveError saveMessage leaderboard score].
      split; [reflexivity|]. split; [reflexivity|]. split; [reflexivity|].
      split; [|split; [|split; [|split; reflexivity]]].
      * rewrite (best_perm _ _ _ (sortByScore_perm _)), I1.
        destruct (existsb (isUser (c :: name)) board) eqn:X; [reflexivity|].
        assert (B0 : best board (c :: name) = 0).
        { apply best_spec. left. split; [|reflexivity].
          intros [u s] Hin Hu. cbn [fst] in Hu. subst u.
          assert (Tr : existsb (isUser (c :: name)) board = true)
            by (apply existsb_isUser; exists s; exact Hin).
          rewrite Tr in X. discriminate X. }
        lia.
      * intros other Hother.
        rewrite (best_perm _ _ _ (sortByScore_perm _)). apply I2. exact Hother.
      * apply sortByScore_falling.
    + cbn [loadTop3 selectTop3 setSaving setSaveMessage setLeaderboard fst snd
           saving saveError saveMessage leaderboard score].
      split; [reflexivity|]. split; [reflexivity|]. split; [reflexivity|].
      split; [|split; [|split; [|split; reflexivity]]].
      * rewrite (best_perm _ _ _ (sortByScore_perm _)). lia.
      * intros other _. apply best_perm, sortByScore_perm.
      * apply sortByScore_falling.
Qed.

End GameFacts.
